(** * PaiScore: the PAI reputation score, its badge tiers and the action dispatcher

    A shallow embedding of [PaiScoreV3.py], the most general of the three
    variants of the program, with the properties of its scoring engine.

    Modelling conventions.
    - Python floats are idealised as exact rationals ([Q]); a decimal literal
      of the source is the rational it denotes, [pow] with an integer
      exponent is [Qpower], and [sum] adds from the left starting at [0].
    - A [datetime.date] is a record of year, month and day.  Dates are
      compared and subtracted through their proleptic Gregorian ordinal, as
      the [datetime] module does.  Adding or subtracting a [timedelta]
      checks that the resulting ordinal lies in the calendar
      ([0 < o <= 3652059], years 1 to 9999) and raises [OverflowError]
      otherwise; for a date of the calendar this check subsumes the limit
      of [timedelta] on the magnitude of its days, which is not modelled
      apart.
    - The [users] dict is a finite map from names to [User] records.  A
      Python reference to a [User] object is the registry key the object is
      stored under: mutating the object is writing the record back under
      that key.
    - A raised exception is the [Raise] outcome; the state returned with it
      holds the mutations made before the exception.
    - The embedding covers the catalog, the badge table, [UserAction],
      [User], [PaiSystem] with its recompute and [advance_time], and the
      dispatcher [handle_user_action]; the status printing and the
      demonstration driver are left out. *)

From Stdlib Require Import ZArith QArith Qpower String List Lia Lqa.
From stdpp Require Import gmap strings list fin_maps.

Local Open Scope Z_scope.

(** ** Python values and builtins *)

Inductive exn : Type :=
| ValueError (msg : string)
| KeyError (key : string)
| OverflowError.

Inductive result (A : Type) : Type :=
| Ok (a : A)
| Raise (e : exn).
Arguments Ok {A} a.
Arguments Raise {A} e.

Definition Qlt_bool (x y : Q) : bool := negb (Qle_bool y x).

(** [min(a, b)] and [max(a, b)] keep the first argument unless the second is
    strictly smaller (resp. larger). *)
Definition py_min (a b : Q) : Q := if Qlt_bool b a then b else a.
Definition py_max (a b : Q) : Q := if Qlt_bool a b then b else a.

(** [sum(xs)]: left to right, from the integer [0]. *)
Definition py_sum (xs : list Q) : Q := fold_left Qplus xs 0%Q.

(** Truthiness of an optional string argument: [None] and [""] are falsy. *)
Definition truthy_str (o : option string) : bool :=
  match o with
  | None => false
  | Some s => negb (String.eqb s EmptyString)
  end.

(** [x in l] for a list of strings [l]; [None] is in no such list. *)
Definition py_in (x : option string) (l : list string) : bool :=
  match x with
  | None => false
  | Some s => existsb (String.eqb s) l
  end.

(** ** [datetime.date] *)

Module Datetime.

Record date : Type := mkdate { year : Z; month : Z; day : Z }.

Definition is_leap (y : Z) : bool :=
  (y mod 4 =? 0) && (negb (y mod 100 =? 0) || (y mod 400 =? 0)).

Definition days_before_year (y : Z) : Z :=
  let y' := y - 1 in y' * 365 + y' / 4 - y' / 100 + y' / 400.

Definition DAYS_BEFORE_MONTH : list Z :=
  [0; 0; 31; 59; 90; 120; 151; 181; 212; 243; 273; 304; 334].

Definition days_before_month (y m : Z) : Z :=
  nth (Z.to_nat m) DAYS_BEFORE_MONTH 0
  + (if (2 <? m) && is_leap y then 1 else 0).

Definition toordinal (d : date) : Z :=
  days_before_year (year d) + days_before_month (year d) (month d) + day d.

(** [(a - b).days] *)
Definition days_between (a b : date) : Z := toordinal a - toordinal b.

(** [date.fromordinal], by the algorithm of the [datetime] module. *)
Definition DAYS_IN_MONTH : list Z :=
  [-1; 31; 28; 31; 30; 31; 30; 31; 31; 30; 31; 30; 31].

Definition DI400Y : Z := 146097.
Definition DI100Y : Z := 36524.
Definition DI4Y : Z := 1461.

Definition ord2ymd (n : Z) : date :=
  let n := n - 1 in
  let n400 := n / DI400Y in
  let n := n mod DI400Y in
  let year := n400 * 400 + 1 in
  let n100 := n / DI100Y in
  let n := n mod DI100Y in
  let n4 := n / DI4Y in
  let n := n mod DI4Y in
  let n1 := n / 365 in
  let n := n mod 365 in
  let year := year + n100 * 100 + n4 * 4 + n1 in
  if (n1 =? 4) || (n100 =? 4) then mkdate (year - 1) 12 31
  else
    let leapyear := (n1 =? 3) && (negb (n4 =? 24) || (n100 =? 3)) in
    let month := Z.shiftr (n + 50) 5 in
    let preceding :=
      nth (Z.to_nat month) DAYS_BEFORE_MONTH 0
      + (if (2 <? month) && leapyear then 1 else 0) in
    if n <? preceding then
      let month := month - 1 in
      let preceding :=
        preceding - (nth (Z.to_nat month) DAYS_IN_MONTH 0
                     + (if (month =? 2) && leapyear then 1 else 0)) in
      mkdate year month (n - preceding + 1)
    else mkdate year month (n - preceding + 1).

Definition fromordinal (n : Z) : date := ord2ymd n.

(** [date.max.toordinal()], the ordinal of 9999-12-31. *)
Definition MAXORDINAL : Z := 3652059.

(** The range test of date arithmetic, [0 < o <= _MAXORDINAL]. *)
Definition in_calendar (o : Z) : bool := (0 <? o) && (o <=? MAXORDINAL).

(** [d + timedelta(days=days)]; [None] is its [OverflowError], raised when
    the resulting day is outside the calendar. *)
Definition add_days (d : date) (days : Z) : option date :=
  let o := toordinal d + days in
  if in_calendar o then Some (fromordinal o) else None.

(** [d - timedelta(days=days)], which is [d + timedelta(days=-days)]. *)
Definition sub_days (d : date) (days : Z) : option date :=
  add_days d (- days).

End Datetime.

(** ** The catalog of action types *)

(** One value of the [ACTION_WEIGHTS] dict.  The keys every entry has are
    plain fields; ["target_score"] and ["delay_factor"] are present in some
    entries only. *)
Record ActionInfo : Type := mkActionInfo {
  w_score : Q;
  w_target_score : option Q;
  w_decay : Q;
  w_allowed_for : list string;
  w_affects_target : bool;
  w_delay_factor : option Q
}.

Definition common : string := "common".
Definition advertiser : string := "advertiser".

Definition ACTION_WEIGHTS_items : list (string * ActionInfo) :=
  [ ("LOGIN"%string, mkActionInfo 0.5 None 0.05 [common; advertiser] false None);
    ("AD_LIKED"%string, mkActionInfo 1.0 (Some 2.0%Q) 0.03 [common] true (Some 0.97%Q));
    ("POSITIVE_COMMENT"%string, mkActionInfo 2.0 (Some 2.5%Q) 0.02 [common] true (Some 0.98%Q));
    ("AD_SHARED"%string, mkActionInfo 4.0 (Some 3.0%Q) 0.01 [common; advertiser] true (Some 0.98%Q));
    ("AD_VISITED"%string, mkActionInfo 0.3 (Some 1.5%Q) 0.07 [common] true (Some 0.96%Q));
    ("GAINED_FOLLOWER"%string, mkActionInfo 5.0 None 0.01 [advertiser] false None);
    ("FOLLOWED_USER"%string, mkActionInfo 0.7 (Some 1.5%Q) 0.08 [common; advertiser] true None);
    ("SENT_MESSAGE"%string, mkActionInfo 1.0 None 0.03 [common; advertiser] false None);
    ("RECEIVED_MESSAGE"%string, mkActionInfo 0.5 None 0.03 [common; advertiser] false None);
    ("RESPONDED_TO_MESSAGE"%string, mkActionInfo 1.2 None 0.03 [advertiser] false None);
    ("ADDED_TO_FAVOURITES"%string, mkActionInfo 4.0 (Some 1.0%Q) 0.01 [common] true (Some 0.97%Q));
    ("VISITED_PROFILE"%string, mkActionInfo 0.4 (Some 0.4%Q) 0.06 [common] true None);
    ("AD_POSTED_FREE"%string, mkActionInfo 4.0 None 0.02 [advertiser] false None);
    ("AD_POSTED_PAI"%string, mkActionInfo 8.0 None 0.01 [advertiser] false None);
    ("AD_POSTED_MONEY"%string, mkActionInfo 15.0 None 0.005 [advertiser] false None);
    ("RESPONDED_TO_REVIEW"%string, mkActionInfo 1.0 (Some 0.5%Q) 0.02 [advertiser] true (Some 0.99%Q));
    ("GAVE_RATING"%string, mkActionInfo 1.5 None 0.04 [common] false None);
    ("RECEIVED_RATING"%string, mkActionInfo 3.5 None 0.02 [advertiser] false None);
    ("VERIFIED_PROFILE"%string, mkActionInfo 10.0 None 0.0 [common; advertiser] false None);
    ("REVIEW_RECEIVED"%string, mkActionInfo 2.0 None 0.02 [advertiser] false None);
    ("AD_BLOCKED"%string, mkActionInfo (-5.0) None 0.0 [advertiser] false None);
    ("AD_REPORTED"%string, mkActionInfo (-6.0) None 0.0 [common] false None);
    ("REPORTED_ADVERTISER"%string, mkActionInfo (-20.0) None 0.0 [advertiser] false None);
    ("INACTIVITY"%string, mkActionInfo (-3.0) None 0.0 [common; advertiser] false None) ].

Definition ACTION_WEIGHTS : gmap string ActionInfo :=
  list_to_map ACTION_WEIGHTS_items.

(** ** Badge tiers *)

Record BadgeInfo : Type := mkBadgeInfo {
  badge_name : string;
  badge_perks : string
}.

(** [BADGE_LEVELS], in the order its items are iterated. *)
Definition BADGE_LEVELS : list ((Z * Z) * BadgeInfo) :=
  [ ((0, 29), mkBadgeInfo "New" "No PAI coin trade, limited ads");
    ((30, 59), mkBadgeInfo "Explorer" "Can view all ads, earn coins");
    ((60, 79), mkBadgeInfo "Trusted" "Can trade coins, appear higher in feed");
    ((80, 94), mkBadgeInfo "Elite" "Premium ads, faster rewards");
    ((95, 100), mkBadgeInfo "Ambassador" "First access, spotlight ads, bonus coins") ].

(** [BADGE_LEVELS[key]] *)
Definition BADGE_LEVELS_get (key : Z * Z) : option BadgeInfo :=
  snd <$> find (fun kv => (fst (fst kv) =? fst key) && (snd (fst kv) =? snd key))
               BADGE_LEVELS.

Definition MAX_AGE_SCORE_CONTRIBUTION : Q := 20.

(** ** [UserAction] *)

Record UserAction : Type := mkUserAction {
  action_type : string;
  date : Datetime.date;
  actor : bool;
  weights : ActionInfo;
  delay_days : Z
}.

(** [UserAction.__init__].  Every call in the program passes the date
    ([User.add_action] has it as a required argument), so the constructor's
    default to the wall-clock date is not part of the model. *)
Definition UserAction_init (action_type : string) (date : Datetime.date)
    (actor : bool) (delay_days : Z) : result UserAction :=
  match ACTION_WEIGHTS !! action_type with
  | None =>
      Raise (ValueError
        (String.append "Action type '" (String.append action_type "' is not defined.")))
  | Some w => Ok (mkUserAction action_type date actor w delay_days)
  end.

Definition get_effective_score (self : UserAction) (current_date : Datetime.date) : Q :=
  let days_old := Datetime.days_between current_date (date self) in
  let base_score :=
    if actor self then w_score (weights self)
    else default 0%Q (w_target_score (weights self)) in
  let decay := w_decay (weights self) in
  let delay_factor := default 1.0%Q (w_delay_factor (weights self)) in
  let score := base_score in
  let score :=
    if Qlt_bool 0 decay
    then (score * Qpower (1 - decay) (Z.max days_old 0))%Q
    else score in
  let score :=
    if (0 <? delay_days self) && Qlt_bool delay_factor 1.0
    then (score * Qpower delay_factor (delay_days self))%Q
    else score in
  score.

(** ** [User] *)

Record User : Type := mkUser {
  name : string;
  type : option string;
  creation_date : Datetime.date;
  action_history : list UserAction;
  score : Q;
  badge : option BadgeInfo;
  age_score_component : Q;
  last_action_date : option Datetime.date
}.

Definition User_init (name : string) (creation_date : Datetime.date)
    (user_type : option string) : User :=
  mkUser name user_type creation_date [] 0 None 0 None.

Definition set_action_history (u : User) (h : list UserAction) : User :=
  mkUser (name u) (type u) (creation_date u) h (score u) (badge u)
         (age_score_component u) (last_action_date u).

Definition set_score (u : User) (x : Q) : User :=
  mkUser (name u) (type u) (creation_date u) (action_history u) x (badge u)
         (age_score_component u) (last_action_date u).

Definition set_badge (u : User) (b : option BadgeInfo) : User :=
  mkUser (name u) (type u) (creation_date u) (action_history u) (score u) b
         (age_score_component u) (last_action_date u).

Definition set_age_score_component (u : User) (x : Q) : User :=
  mkUser (name u) (type u) (creation_date u) (action_history u) (score u)
         (badge u) x (last_action_date u).

Definition set_last_action_date (u : User) (d : option Datetime.date) : User :=
  mkUser (name u) (type u) (creation_date u) (action_history u) (score u)
         (badge u) (age_score_component u) d.

(** [User.add_action]: the record is appended, and the last action date
    moves forward when the new date is later. *)
Definition add_action (self : User) (action_type : string)
    (date : Datetime.date) (actor : bool) (delay_days : Z) : result User :=
  match UserAction_init action_type date actor delay_days with
  | Raise e => Raise e
  | Ok action =>
      let self := set_action_history self (action_history self ++ [action]) in
      let later :=
        match last_action_date self with
        | None => true
        | Some d => Datetime.toordinal d <? Datetime.toordinal date
        end in
      Ok (if later then set_last_action_date self (Some date) else self)
  end.

(** ** [PaiSystem] *)

Record PaiSystem : Type := mkPaiSystem {
  users : gmap string User;
  history_days : Z;
  inactivity_days : Z;
  current_date : Datetime.date
}.

Definition set_users (self : PaiSystem) (m : gmap string User) : PaiSystem :=
  mkPaiSystem m (history_days self) (inactivity_days self) (current_date self).

(** [PaiSystem.__init__] with its default arguments; the clock starts at the
    date the driver supplies. *)
Definition PaiSystem_init (today : Datetime.date) : PaiSystem :=
  mkPaiSystem ∅ 30 7 today.

Definition get_or_create_user (self : PaiSystem) (name : string)
    (user_type : option string) (creation_date : option Datetime.date)
    : PaiSystem * result User :=
  match users self !! name with
  | None =>
      let u := User_init name (default (current_date self) creation_date) user_type in
      (set_users self (<[name := u]> (users self)), Ok u)
  | Some u =>
      if truthy_str user_type && negb (bool_decide (type u = user_type))
      then (self, Raise (ValueError
              (String.append "User '" (String.append name "' type mismatch."))))
      else (self, Ok u)
  end.

Definition _get_badge_for_score (score : Q) : option BadgeInfo :=
  match find (fun kv => Qle_bool (inject_Z (fst (fst kv))) score
                        && Qle_bool score (inject_Z (snd (fst kv))))
             BADGE_LEVELS with
  | Some kv => Some (snd kv)
  | None =>
      if Qlt_bool 100 score then BADGE_LEVELS_get (95, 100)
      else if Qlt_bool score 0 then BADGE_LEVELS_get (0, 29)
      else None
  end.

(** [_calculate_age_score]: the bonus, and the user with the bonus cached. *)
Definition _calculate_age_score (self : PaiSystem) (user : User) : User * Q :=
  let total_months :=
    (Datetime.year (current_date self) - Datetime.year (creation_date user)) * 12
    + (Datetime.month (current_date self) - Datetime.month (creation_date user)) in
  let account_age_years := (inject_Z total_months / 12.0)%Q in
  let age_multiplier :=
    if Qle_bool 8 account_age_years then 0.5%Q
    else if Qle_bool 5 account_age_years then 0.4%Q
    else if Qle_bool 2 account_age_years then 0.3%Q
    else 0.15%Q in
  let user := set_age_score_component user
                (MAX_AGE_SCORE_CONTRIBUTION * age_multiplier)%Q in
  (user, age_score_component user).

(** The test of the list comprehension of [update_user_score]:
    [a.date >= cutoff], the cutoff given by its ordinal. *)
Definition in_window (cutoff : Z) (a : UserAction) : bool :=
  cutoff <=? Datetime.toordinal (date a).

Definition update_user_score (self : PaiSystem) (user_name : string)
    : PaiSystem * result unit :=
  match users self !! user_name with
  | None => (self, Raise (KeyError user_name))
  | Some user =>
      match Datetime.sub_days (current_date self) (history_days self) with
      | None => (self, Raise OverflowError)
      | Some cutoff =>
          let user := set_action_history user
                        (List.filter (in_window (Datetime.toordinal cutoff))
                                     (action_history user)) in
          let score' := py_sum (map (fun a => get_effective_score a (current_date self))
                                    (action_history user)) in
          let '(user, age_score) := _calculate_age_score self user in
          let final_score := py_max 0 (py_min 100 (score' + age_score)) in
          let user := set_score user final_score in
          let user := set_badge user (_get_badge_for_score (score user)) in
          (set_users self (<[user_name := user]> (users self)), Ok tt)
      end
  end.

(** The loop of [advance_time]: [update_user_score] for each name in turn;
    an exception ends the loop. *)
Fixpoint update_each (self : PaiSystem) (names : list string)
    : PaiSystem * result unit :=
  match names with
  | [] => (self, Ok tt)
  | uname :: names' =>
      match update_user_score self uname with
      | (self', Ok _) => update_each self' names'
      | (self', Raise e) => (self', Raise e)
      end
  end.

Definition set_current_date (self : PaiSystem) (d : Datetime.date) : PaiSystem :=
  mkPaiSystem (users self) (history_days self) (inactivity_days self) d.

(** [advance_time], the names of the [users] dict being iterated in the
    order [order] (the dict's insertion order, which the finite map does
    not record). *)
Definition advance_time_in (order : list string) (self : PaiSystem) (days : Z)
    : PaiSystem * result unit :=
  match Datetime.add_days (current_date self) days with
  | None => (self, Raise OverflowError)
  | Some d =>
      let self := set_current_date self d in
      update_each self order
  end.

(** [advance_time] with the names taken in the order of the finite map. *)
Definition advance_time (self : PaiSystem) (days : Z) : PaiSystem * result unit :=
  advance_time_in (map fst (map_to_list (users self))) self days.

(** ** The dispatcher *)

(** Computations over the engine state that may raise. *)
Definition M (A : Type) : Type := PaiSystem -> PaiSystem * result A.

Definition ret {A : Type} (a : A) : M A := fun s => (s, Ok a).

Definition bind {A B : Type} (m : M A) (k : A -> M B) : M B :=
  fun s =>
    match m s with
    | (s', Ok a) => k a s'
    | (s', Raise e) => (s', Raise e)
    end.

Definition lift {A : Type} (r : result A) : M A := fun s => (s, r).

(** Writing back the object stored under the key [key]. *)
Definition store (key : string) (u : User) : M unit :=
  fun s => (set_users s (<[key := u]> (users s)), Ok tt).

Notation "x <- m ;; k" := (bind m (fun x => k))
  (at level 100, m at next level, right associativity).

(** [handle_user_action].  The returned [Some key] stands for the [User]
    object stored under [key]; [None] is Python's [None]. *)
Definition handle_user_action (pai_system : PaiSystem) (user_name : string)
    (action_type : string) (user_type : option string)
    (action_date : option Datetime.date) (creation_date : option Datetime.date)
    (target_user_name : option string) (target_user_type : option string)
    (target_creation_date : option Datetime.date)
    (delay_days target_delay_days : Z) : PaiSystem * result (option string) :=
  let action_date := default (current_date pai_system) action_date in
  match ACTION_WEIGHTS !! action_type with
  | None => (pai_system, Ok None)
  | Some info =>
      let allowed_for := w_allowed_for info in
      (actor <- (fun s => get_or_create_user s user_name user_type creation_date) ;;
       if negb (py_in (type actor) allowed_for) then ret (Some user_name)
       else
         actor <- lift (add_action actor action_type action_date true delay_days) ;;
         _ <- store user_name actor ;;
         _ <- (fun s => update_user_score s (name actor)) ;;
         if w_affects_target info then
           if negb (truthy_str target_user_name) then ret (Some user_name)
           else
             let target_user_name := default EmptyString target_user_name in
             target <- (fun s => get_or_create_user s target_user_name
                                   target_user_type target_creation_date) ;;
             target <- lift (add_action target action_type action_date false
                               (if target_delay_days =? 0 then delay_days
                                else target_delay_days)) ;;
             _ <- store target_user_name target ;;
             _ <- (fun s => update_user_score s (name target)) ;;
             ret (Some user_name)
         else ret (Some user_name)) pai_system
  end.

(** ** What a recompute computes *)

(** The ordinal of [current_date - timedelta(days=history_days)]. *)
Definition cutoff (s : PaiSystem) : Z :=
  Datetime.toordinal (current_date s) - history_days s.

(** The cutoff is a day of the calendar, so that the subtraction of
    [update_user_score] does not raise [OverflowError]. *)
Definition window_in_calendar (s : PaiSystem) : Prop :=
  1 <= cutoff s <= Datetime.MAXORDINAL.

(** The day [days] days after [d], when it is a day of the calendar. *)
Definition days_later (d : Datetime.date) (days : Z) : Datetime.date :=
  Datetime.fromordinal (Datetime.toordinal d + days).

(** Moving the clock by [days] days stays within the calendar, and so does
    the cutoff at the new date: [advance_time] raises no [OverflowError]. *)
Definition advance_in_calendar (s : PaiSystem) (days : Z) : Prop :=
  1 <= Datetime.toordinal (current_date s) + days <= Datetime.MAXORDINAL
  /\ 1 <= Datetime.toordinal (current_date s) + days - history_days s
       <= Datetime.MAXORDINAL.

(** The records that survive the pruning. *)
Definition retained (s : PaiSystem) (u : User) : list UserAction :=
  List.filter (in_window (cutoff s)) (action_history u).

(** The sum of the present-day contributions of a history. *)
Definition activity (s : PaiSystem) (h : list UserAction) : Q :=
  py_sum (map (fun a => get_effective_score a (current_date s)) h).

Definition tenure_bonus (s : PaiSystem) (u : User) : Q :=
  snd (_calculate_age_score s u).


(** The [User] object after [update_user_score] has run on it. *)
Definition recomputed (s : PaiSystem) (u : User) : User :=
  let final_score :=
    py_max 0 (py_min 100 (activity s (retained s u) + tenure_bonus s u)) in
  mkUser (name u) (type u) (creation_date u) (retained s u) final_score
         (_get_badge_for_score final_score) (tenure_bonus s u)
         (last_action_date u).


(** The registry invariant the constructors establish: an object is stored
    under its own name. *)
Definition registry_ok (s : PaiSystem) : Prop :=
  forall key u, users s !! key = Some u -> name u = key.

(** ** The tenure bonus and the contribution of a record, as specified *)

(** Whole months between the creation date and the current date. *)
Definition total_months (s : PaiSystem) (u : User) : Z :=
  (Datetime.year (current_date s) - Datetime.year (creation_date u)) * 12
  + (Datetime.month (current_date s) - Datetime.month (creation_date u)).

(** The multiplier of the bonus, by whole months of account age. *)
Definition age_multiplier_of_months (m : Z) : Q :=
  if 96 <=? m then 0.5%Q
  else if 60 <=? m then 0.4%Q
  else if 24 <=? m then 0.3%Q
  else 0.15%Q.



(** The weight a record starts from: the base weight for the actor role,
    the target weight (0 when there is none) for the target role. *)
Definition role_weight (a : UserAction) : Q :=
  if actor a then w_score (weights a) else default 0%Q (w_target_score (weights a)).

(** What the catalog's rates satisfy: every decay rate, and every declared
    delay factor, lies between 0 and 1. *)
Definition catalog_rates_bounded (w : ActionInfo) : bool :=
  Qle_bool 0 (w_decay w) && Qle_bool (w_decay w) 1
  && match w_delay_factor w with
     | Some f => Qle_bool 0 f && Qle_bool f 1
     | None => true
     end.

(** What the catalog's penalties satisfy: an entry of negative weight has
    decay rate 0 and declares no delay factor. *)
Definition penalty_entry_constant (w : ActionInfo) : bool :=
  Qle_bool 0 (w_score w)
  || (negb (Qlt_bool 0 (w_decay w))
      && match w_delay_factor w with Some _ => false | None => true end).

(** ** Resolving a participant and recording an action *)

(** The supplied role class does not contradict the registered one. *)
Definition role_consistent (s : PaiSystem) (name : string)
    (user_type : option string) : Prop :=
  forall u, users s !! name = Some u -> truthy_str user_type = true ->
            type u = user_type.

(** The participant a name resolves to: the registered one, or a fresh one
    with the supplied role class and creation date. *)
Definition resolve (s : PaiSystem) (name : string) (user_type : option string)
    (creation_date : option Datetime.date) : User :=
  match users s !! name with
  | Some u => u
  | None => User_init name (default (current_date s) creation_date) user_type
  end.

Definition registered (s : PaiSystem) (key : string) (u : User) : PaiSystem :=
  set_users s (<[key := u]> (users s)).

(** The [User] object after [add_action] has appended the record [r]. *)
Definition with_record (u : User) (r : UserAction) : User :=
  let u' := set_action_history u (action_history u ++ [r]) in
  if match last_action_date u with
     | None => true
     | Some d => Datetime.toordinal d <? Datetime.toordinal (date r)
     end
  then set_last_action_date u' (Some (date r))
  else u'.

(** ** Outcomes and identities

    The [ValueError] of the role-mismatch guard of [get_or_create_user]. *)
Definition mismatch_error (n : string) : exn :=
  ValueError (String.append "User '" (String.append n "' type mismatch.")).

(** What never changes of a participant. *)
Definition same_identity (u u' : User) : Prop :=
  name u' = name u /\ type u' = type u /\ creation_date u' = creation_date u.

(** Every participant of [s] is in [s'], with the same identity. *)
Definition keeps_identities (s s' : PaiSystem) : Prop :=
  forall key u, users s !! key = Some u ->
                exists u', users s' !! key = Some u' /\ same_identity u u'.

(** ** Concrete engine states

    The clock of the demonstration driver, and an advertiser whose history
    holds one record older than the 30-day window and two inside it. *)

Definition sim_start_date : Datetime.date := Datetime.mkdate 2025 7 18.

Definition login_info : ActionInfo :=
  mkActionInfo 0.5 None 0.05 [common; advertiser] false None.

Definition ad_posted_pai_info : ActionInfo :=
  mkActionInfo 8.0 None 0.01 [advertiser] false None.

Definition sai_history : list UserAction :=
  [ mkUserAction "LOGIN" (Datetime.mkdate 2025 6 1) true login_info 0;
    mkUserAction "AD_POSTED_PAI" (Datetime.mkdate 2025 7 10) true ad_posted_pai_info 0;
    mkUserAction "LOGIN" (Datetime.mkdate 2025 7 18) true login_info 0 ].

Definition sai : User :=
  mkUser "Sai" (Some advertiser) (Datetime.mkdate 2025 1 5) sai_history 0 None 0
         (Some (Datetime.mkdate 2025 7 18)).

Definition demo_system : PaiSystem :=
  mkPaiSystem {[ "Sai"%string := sai ]} 30 7 sim_start_date.

Definition ad_liked_info : ActionInfo :=
  mkActionInfo 1.0 (Some 2.0%Q) 0.03 [common] true (Some 0.97%Q).


(** The target-role record of a like made 2 days after the ad was posted,
    dated 8 July 2025. *)
Definition delayed_like : UserAction :=
  mkUserAction "AD_LIKED" (Datetime.mkdate 2025 7 8) false
    ad_liked_info 2.

(** The engine after an advertiser registered on the current date posted a
    paid ad and a PAI ad and received a rating, all on that date. *)
Definition three_actions : PaiSystem :=
  let submit s action :=
    fst (handle_user_action s "Kavita" action (Some advertiser) None None
           None None None 0 0) in
  submit (submit (submit (PaiSystem_init sim_start_date) "AD_POSTED_MONEY")
            "AD_POSTED_PAI") "RECEIVED_RATING".


(** A report made on 20 June 2025, 9 days after the ad was posted. *)
Definition old_report : UserAction :=
  mkUserAction "AD_REPORTED" (Datetime.mkdate 2025 6 20) true
    (mkActionInfo (-6.0) None 0.0 [common] false None) 9.

(** The engine of [demo_system] on 1 September 2025, every record of "Sai"
    being then older than the window. *)
Definition dormant_system : PaiSystem :=
  mkPaiSystem {[ "Sai"%string := sai ]} 30 7 (Datetime.mkdate 2025 9 1).

(** ** The calendar *)

(** Evaluation of the month tables at a given month. *)
Ltac month_tables :=
  repeat match goal with
  | |- context [nth (Z.to_nat ?k) ?l 0] =>
      let v := eval vm_compute in (nth (Z.to_nat k) l 0) in
      change (nth (Z.to_nat k) l 0) with v
  | |- context [2 <? ?k] =>
      let v := eval vm_compute in (2 <? k) in change (2 <? k) with v
  | |- context [?k =? 2] =>
      let v := eval vm_compute in (k =? 2) in change (k =? 2) with v
  | |- context [Z.pos ?a - 1] =>
      let v := eval vm_compute in (Z.pos a - 1) in change (Z.pos a - 1) with v
  end;
  cbn [andb]; cbv iota.

Lemma is_leap_true (y : Z) :
  Datetime.is_leap y = true
  <-> (y mod 4 = 0 /\ (y mod 100 <> 0 \/ y mod 400 = 0)).
Proof.
  unfold Datetime.is_leap. rewrite andb_true_iff, orb_true_iff, negb_true_iff.
  rewrite !Z.eqb_eq, Z.eqb_neq. tauto.
Qed.

Lemma days_before_year_split (n400 n100 n4 n1 : Z) :
  0 <= n100 <= 3 -> 0 <= n4 <= 24 -> 0 <= n1 <= 3 ->
  Datetime.days_before_year (n400 * 400 + 1 + n100 * 100 + n4 * 4 + n1)
  = 146097 * n400 + 36524 * n100 + 1461 * n4 + 365 * n1.
Proof.
  intros H100 H4 H1. unfold Datetime.days_before_year. cbv zeta.
  Z.div_mod_to_equations. lia.
Qed.

Lemma is_leap_split (n400 n100 n4 n1 : Z) :
  0 <= n100 <= 3 -> 0 <= n4 <= 24 -> 0 <= n1 <= 3 ->
  Datetime.is_leap (n400 * 400 + 1 + n100 * 100 + n4 * 4 + n1)
  = (n1 =? 3) && (negb (n4 =? 24) || (n100 =? 3)).
Proof.
  intros H100 H4 H1. apply eq_iff_eq_true.
  rewrite is_leap_true, andb_true_iff, orb_true_iff, negb_true_iff.
  rewrite !Z.eqb_eq, Z.eqb_neq.
  Z.div_mod_to_equations. lia.
Qed.

(** The date of an ordinal has that ordinal. *)
Lemma toordinal_fromordinal (n : Z) :
  1 <= n -> Datetime.toordinal (Datetime.fromordinal n) = n.
Proof.
  intros Hn.
  unfold Datetime.fromordinal, Datetime.ord2ymd, Datetime.DI400Y,
    Datetime.DI100Y, Datetime.DI4Y.
  cbv zeta.
  pose proof (Z.div_mod (n - 1) 146097 ltac:(lia)) as E1.
  pose proof (Z.mod_pos_bound (n - 1) 146097 ltac:(lia)) as B1.
  set (n400 := (n - 1) / 146097) in *. set (r1 := (n - 1) mod 146097) in *.
  pose proof (Z.div_mod r1 36524 ltac:(lia)) as E2.
  pose proof (Z.mod_pos_bound r1 36524 ltac:(lia)) as B2.
  set (n100 := r1 / 36524) in *. set (r2 := r1 mod 36524) in *.
  pose proof (Z.div_mod r2 1461 ltac:(lia)) as E3.
  pose proof (Z.mod_pos_bound r2 1461 ltac:(lia)) as B3.
  set (n4 := r2 / 1461) in *. set (r3 := r2 mod 1461) in *.
  pose proof (Z.div_mod r3 365 ltac:(lia)) as E4.
  pose proof (Z.mod_pos_bound r3 365 ltac:(lia)) as B4.
  set (n1 := r3 / 365) in *. set (r4 := r3 mod 365) in *.
  assert (H400 : 0 <= n400) by (apply Z.div_pos; lia).
  assert (H100 : 0 <= n100) by (apply Z.div_pos; lia).
  assert (H4 : 0 <= n4) by (apply Z.div_pos; lia).
  assert (H1 : 0 <= n1) by (apply Z.div_pos; lia).
  clearbody n400 r1 n100 r2 n4 r3 n1 r4.
  destruct (Z.eqb_spec n1 4) as [E14 | N14]; cbn [orb].
  { unfold Datetime.toordinal. cbn [Datetime.year Datetime.month Datetime.day].
    replace (n400 * 400 + 1 + n100 * 100 + n4 * 4 + n1 - 1)
      with (n400 * 400 + 1 + n100 * 100 + n4 * 4 + 3) by lia.
    rewrite days_before_year_split by lia.
    unfold Datetime.days_before_month. rewrite is_leap_split by lia.
    change (Z.to_nat 12) with 12%nat. cbn [nth Datetime.DAYS_BEFORE_MONTH].
    change (2 <? 12) with true. change (3 =? 3) with true. cbn [andb].
    destruct (Z.eqb_spec n4 24); destruct (Z.eqb_spec n100 3); cbn [negb orb]; lia. }
  destruct (Z.eqb_spec n100 4) as [E104 | N104]; cbn [orb].
  { unfold Datetime.toordinal. cbn [Datetime.year Datetime.month Datetime.day].
    replace (n400 * 400 + 1 + n100 * 100 + n4 * 4 + n1 - 1)
      with (n400 * 400 + 1 + 3 * 100 + 24 * 4 + 3) by lia.
    rewrite days_before_year_split by lia.
    unfold Datetime.days_before_month. rewrite is_leap_split by lia.
    change (Z.to_nat 12) with 12%nat. cbn [nth Datetime.DAYS_BEFORE_MONTH].
    vm_compute ((2 <? 12) && ((3 =? 3) && (negb (24 =? 24) || (3 =? 3)))).
    lia. }
  assert (B100 : 0 <= n100 <= 3) by lia.
  assert (B4' : 0 <= n4 <= 24) by lia.
  assert (B1' : 0 <= n1 <= 3) by lia.
  rewrite Z.shiftr_div_pow2 by lia. change (2 ^ 5) with 32.
  pose proof (is_leap_split n400 n100 n4 n1 B100 B4' B1') as Hleap.
  pose proof (days_before_year_split n400 n100 n4 n1 B100 B4' B1') as Hdby.
  set (leapyear := (n1 =? 3) && (negb (n4 =? 24) || (n100 =? 3))) in *.
  set (y := n400 * 400 + 1 + n100 * 100 + n4 * 4 + n1) in *.
  assert (Hm : 1 <= (r4 + 50) / 32 <= 12) by (Z.div_mod_to_equations; lia).
  assert (Hq : 32 * ((r4 + 50) / 32) <= r4 + 50 < 32 * ((r4 + 50) / 32) + 32)
    by (Z.div_mod_to_equations; lia).
  set (m := (r4 + 50) / 32) in *. clearbody m.
  assert (Hcases : m = 1 \/ m = 2 \/ m = 3 \/ m = 4 \/ m = 5 \/ m = 6 \/ m = 7
                   \/ m = 8 \/ m = 9 \/ m = 10 \/ m = 11 \/ m = 12) by lia.
  clearbody leapyear y.
  repeat (destruct Hcases as [-> | Hcases]); try subst m;
    destruct leapyear; month_tables;
    match goal with
    | |- context [r4 <? ?k] => destruct (Z.ltb_spec r4 k)
    end;
    unfold Datetime.toordinal, Datetime.days_before_month;
    cbn [Datetime.year Datetime.month Datetime.day];
    month_tables; rewrite ?Hleap; cbv iota; lia.
Qed.

Lemma in_calendar_true (o : Z) :
  1 <= o <= Datetime.MAXORDINAL -> Datetime.in_calendar o = true.
Proof.
  intros [H1 H2]. unfold Datetime.in_calendar.
  apply andb_true_intro. split; [apply Z.ltb_lt | apply Z.leb_le]; lia.
Qed.

Lemma in_calendar_false (o : Z) :
  ~ (1 <= o <= Datetime.MAXORDINAL) -> Datetime.in_calendar o = false.
Proof.
  intros H. unfold Datetime.in_calendar.
  destruct (Z.ltb_spec 0 o); destruct (Z.leb_spec o Datetime.MAXORDINAL);
    try reflexivity.
  exfalso. apply H. lia.
Qed.

Lemma add_days_in_calendar (d : Datetime.date) (days : Z) :
  1 <= Datetime.toordinal d + days <= Datetime.MAXORDINAL ->
  Datetime.add_days d days = Some (days_later d days).
Proof.
  intros H. unfold Datetime.add_days. cbv zeta.
  rewrite in_calendar_true by assumption. reflexivity.
Qed.

Lemma add_days_overflow (d : Datetime.date) (days : Z) :
  ~ (1 <= Datetime.toordinal d + days <= Datetime.MAXORDINAL) ->
  Datetime.add_days d days = None.
Proof.
  intros H. unfold Datetime.add_days. cbv zeta.
  rewrite in_calendar_false by assumption. reflexivity.
Qed.

Lemma toordinal_days_later (d : Datetime.date) (days : Z) :
  1 <= Datetime.toordinal d + days ->
  Datetime.toordinal (days_later d days) = Datetime.toordinal d + days.
Proof. intros H. unfold days_later. apply toordinal_fromordinal. assumption. Qed.


(** The cutoff date of a recompute, when the window is in the calendar. *)
Lemma sub_days_window (s : PaiSystem) :
  window_in_calendar s ->
  exists c, Datetime.sub_days (current_date s) (history_days s) = Some c
            /\ Datetime.toordinal c = cutoff s.
Proof.
  unfold window_in_calendar, cutoff. intros H.
  exists (days_later (current_date s) (- history_days s)). split.
  - unfold Datetime.sub_days. apply add_days_in_calendar. lia.
  - rewrite toordinal_days_later by lia. lia.
Qed.

Lemma sub_days_overflow (s : PaiSystem) :
  ~ window_in_calendar s ->
  Datetime.sub_days (current_date s) (history_days s) = None.
Proof.
  unfold window_in_calendar, cutoff. intros H.
  unfold Datetime.sub_days. apply add_days_overflow. lia.
Qed.

Lemma window_in_calendar_dec (s : PaiSystem) :
  window_in_calendar s \/ ~ window_in_calendar s.
Proof. unfold window_in_calendar. lia. Qed.

Example add_days_examples :
  Datetime.add_days sim_start_date 35 = Some (Datetime.mkdate 2025 8 22)
  /\ Datetime.add_days (Datetime.mkdate 2024 2 28) 1 = Some (Datetime.mkdate 2024 2 29)
  /\ Datetime.add_days (Datetime.mkdate 2023 12 31) 1 = Some (Datetime.mkdate 2024 1 1)
  /\ Datetime.add_days (Datetime.mkdate 9999 12 31) 1 = None
  /\ Datetime.sub_days (Datetime.mkdate 1 1 1) 1 = None
  /\ Datetime.fromordinal 1 = Datetime.mkdate 1 1 1
  /\ Datetime.toordinal (Datetime.mkdate 9999 12 31) = Datetime.MAXORDINAL.
Proof. repeat split; vm_compute; reflexivity. Qed.

(** ** Auxiliary facts *)

Section Builtins.

Local Open Scope Q_scope.

Lemma Qlt_bool_iff (x y : Q) : Qlt_bool x y = true <-> x < y.
Proof.
  unfold Qlt_bool. rewrite negb_true_iff. split.
  - intros H. apply Qnot_le_lt. intros Hle.
    apply Qle_bool_iff in Hle. congruence.
  - intros H. destruct (Qle_bool y x) eqn:E; [|reflexivity].
    apply Qle_bool_iff in E. exfalso. exact (Qlt_not_le _ _ H E).
Qed.




End Builtins.

Lemma filter_idempotent {A : Type} (f : A -> bool) (l : list A) :
  List.filter f (List.filter f l) = List.filter f l.
Proof.
  induction l as [|x l IH]; simpl; [reflexivity|].
  destruct (f x) eqn:E; simpl; [rewrite E, IH|]; auto.
Qed.

Lemma tenure_bonus_history (s : PaiSystem) (u : User) (h : list UserAction) :
  tenure_bonus s (set_action_history u h) = tenure_bonus s u.
Proof. reflexivity. Qed.

Lemma update_user_score_found (s : PaiSystem) (user_name : string) (u : User) :
  users s !! user_name = Some u ->
  window_in_calendar s ->
  update_user_score s user_name
  = (set_users s (<[user_name := recomputed s u]> (users s)), Ok tt).
Proof.
  intros H Hw. destruct (sub_days_window s Hw) as (c & Hc & Ho).
  unfold update_user_score. rewrite H, Hc. cbv beta iota zeta.
  rewrite Ho. reflexivity.
Qed.

Lemma update_user_score_overflow (s : PaiSystem) (user_name : string) (u : User) :
  users s !! user_name = Some u ->
  ~ window_in_calendar s ->
  update_user_score s user_name = (s, Raise OverflowError).
Proof.
  intros H Hw. unfold update_user_score.
  rewrite H, (sub_days_overflow s Hw). reflexivity.
Qed.

(** With a window of 800000 days the cutoff of 18 July 2025 lies before
    year 1: the recompute raises and leaves the engine as it was. *)
Example update_user_score_overflow_example :
  let s := mkPaiSystem (users demo_system) 800000 7 sim_start_date in
  update_user_score s "Sai" = (s, Raise OverflowError).
Proof. vm_compute. reflexivity. Qed.

Lemma update_user_score_missing (s : PaiSystem) (user_name : string) :
  users s !! user_name = None ->
  update_user_score s user_name = (s, Raise (KeyError user_name)).
Proof.
  intros H. unfold update_user_score. rewrite H. reflexivity.
Qed.

Lemma recomputed_idempotent (s : PaiSystem) (m : gmap string User) (u : User) :
  recomputed (set_users s m) (recomputed s u) = recomputed s u.
Proof.
  unfold recomputed, retained, cutoff, activity, tenure_bonus. simpl.
  rewrite filter_idempotent. reflexivity.
Qed.

(** ** The score after a recompute *)



(** ** Pruning *)



(** The record of 1 June 2025 is outside the window of 18 July 2025 and is
    dropped; the two later records stay. *)
Example demo_pruned :
  (action_history <$> users (fst (update_user_score demo_system "Sai")) !! "Sai"%string)
  = Some (tl sai_history).
Proof. vm_compute. reflexivity. Qed.



(** ** The tenure bonus *)

Lemma years_threshold (k m : Z) :
  Qle_bool (inject_Z k) (inject_Z m / 12.0) = (12 * k <=? m).
Proof.
  set (r := 12 * k <=? m).
  unfold Qle_bool, Qdiv, Qmult, Qinv, inject_Z. simpl. subst r.
  change (Z.pos (1 * 120)) with 120.
  destruct (Z.leb_spec (k * 120) (m * 10 * 1)); destruct (Z.leb_spec (12 * k) m);
    try reflexivity; exfalso; lia.
Qed.

Lemma whole_years_threshold (k m : Z) :
  Qle_bool (inject_Z k) (inject_Z m / 12) = (12 * k <=? m).
Proof.
  set (r := 12 * k <=? m).
  unfold Qle_bool, Qdiv, Qmult, Qinv, inject_Z. simpl. subst r.
  change (Z.pos (1 * 12)) with 12.
  destruct (Z.leb_spec (k * 12) (m * 1 * 1)); destruct (Z.leb_spec (12 * k) m);
    try reflexivity; exfalso; lia.
Qed.

Lemma tenure_bonus_by_months (s : PaiSystem) (u : User) :
  tenure_bonus s u
  = (MAX_AGE_SCORE_CONTRIBUTION * age_multiplier_of_months (total_months s u))%Q.
Proof.
  unfold tenure_bonus, _calculate_age_score, age_multiplier_of_months. simpl.
  fold (total_months s u).
  change 8%Q with (inject_Z 8). change 5%Q with (inject_Z 5).
  change 2%Q with (inject_Z 2).
  rewrite !years_threshold. reflexivity.
Qed.

(** C6. The tenure bonus is 20 times a multiplier fixed by the whole-month
    account age in years (0.5 from 8 years, 0.4 from 5, 0.3 from 2, 0.15
    below), so it is one of 10, 8, 6 and 3; it does not decrease when the
    account age grows; and it is at least 3, and exactly 3 for a participant
    created on the current date.  The value is also the one cached on the
    participant. *)
Theorem tenure_bonus_values (s : PaiSystem) (u : User) :
  let years := (inject_Z (total_months s u) / 12)%Q in
  let b := tenure_bonus s u in
  age_score_component (fst (_calculate_age_score s u)) = b
  /\ ((8 <= years)%Q -> (b == 20 * 0.5)%Q /\ (b == 10)%Q)
  /\ ((5 <= years)%Q -> (years < 8)%Q -> (b == 20 * 0.4)%Q /\ (b == 8)%Q)
  /\ ((2 <= years)%Q -> (years < 5)%Q -> (b == 20 * 0.3)%Q /\ (b == 6)%Q)
  /\ ((years < 2)%Q -> (b == 20 * 0.15)%Q /\ (b == 3)%Q)
  /\ ((b == 10)%Q \/ (b == 8)%Q \/ (b == 6)%Q \/ (b == 3)%Q)
  /\ (3 <= b)%Q
  /\ (creation_date u = current_date s -> (b == 3)%Q)
  /\ (forall s' u', total_months s u <= total_months s' u' ->
                    (b <= tenure_bonus s' u')%Q).
Proof.
  cbv zeta.
  assert (Hy : forall k, Qle_bool (inject_Z k) (inject_Z (total_months s u) / 12)
                         = (12 * k <=? total_months s u)).
  { intros k. apply whole_years_threshold. }
  assert (Hge : forall k, (inject_Z k <= inject_Z (total_months s u) / 12)%Q
                          <-> 12 * k <= total_months s u).
  { intros k. rewrite <- Qle_bool_iff, Hy. apply Z.leb_le. }
  assert (Hlt : forall k, (inject_Z (total_months s u) / 12 < inject_Z k)%Q
                          <-> total_months s u < 12 * k).
  { intros k. rewrite <- Qlt_bool_iff. unfold Qlt_bool. rewrite Hy.
    rewrite negb_true_iff. apply Z.leb_gt. }
  split; [reflexivity|].
  rewrite tenure_bonus_by_months. unfold age_multiplier_of_months.
  split; [|split; [|split; [|split; [|split; [|split; [|split]]]]]].
  - intros H8. apply (Hge 8) in H8.
    destruct (Z.leb_spec 96 (total_months s u)); [|lia].
    split; reflexivity.
  - intros H5 H8. apply (Hge 5) in H5. apply (Hlt 8) in H8.
    destruct (Z.leb_spec 96 (total_months s u)); [lia|].
    destruct (Z.leb_spec 60 (total_months s u)); [|lia].
    split; reflexivity.
  - intros H2 H5. apply (Hge 2) in H2. apply (Hlt 5) in H5.
    destruct (Z.leb_spec 96 (total_months s u)); [lia|].
    destruct (Z.leb_spec 60 (total_months s u)); [lia|].
    destruct (Z.leb_spec 24 (total_months s u)); [|lia].
    split; reflexivity.
  - intros H2. apply (Hlt 2) in H2.
    destruct (Z.leb_spec 96 (total_months s u)); [lia|].
    destruct (Z.leb_spec 60 (total_months s u)); [lia|].
    destruct (Z.leb_spec 24 (total_months s u)); [lia|].
    split; reflexivity.
  - destruct (96 <=? total_months s u); [left; reflexivity|].
    destruct (60 <=? total_months s u); [right; left; reflexivity|].
    destruct (24 <=? total_months s u); [right; right; left; reflexivity|].
    right; right; right; reflexivity.
  - destruct (96 <=? total_months s u); [discriminate|].
    destruct (60 <=? total_months s u); [discriminate|].
    destruct (24 <=? total_months s u); discriminate.
  - intros Hc. unfold total_months. rewrite Hc.
    replace ((Datetime.year (current_date s) - Datetime.year (current_date s)) * 12
             + (Datetime.month (current_date s) - Datetime.month (current_date s)))
      with 0 by lia.
    reflexivity.
  - intros s' u' Hm. rewrite tenure_bonus_by_months.
    unfold age_multiplier_of_months.
    destruct (Z.leb_spec 96 (total_months s u));
      destruct (Z.leb_spec 60 (total_months s u));
      destruct (Z.leb_spec 24 (total_months s u));
      destruct (Z.leb_spec 96 (total_months s' u'));
      destruct (Z.leb_spec 60 (total_months s' u'));
      destruct (Z.leb_spec 24 (total_months s' u'));
      try lia; discriminate.
Qed.

(** A participant created 8 years before the current date has the bonus
    [20 * 0.5 = 10]; one created on the current date has 3. *)
Example tenure_eight_years :
  (tenure_bonus demo_system
     (User_init "Kavita" (Datetime.mkdate 2017 7 18) (Some advertiser)) == 10)%Q
  /\ (tenure_bonus demo_system
        (User_init "Trupti" sim_start_date (Some common)) == 3)%Q.
Proof. split; reflexivity. Qed.

Lemma tenure_bonus_values_witness :
  (tenure_bonus demo_system
     (User_init "Kavita" (Datetime.mkdate 2017 7 18) (Some advertiser)) == 10)%Q.
Proof.
  pose proof (tenure_bonus_values demo_system
    (User_init "Kavita" (Datetime.mkdate 2017 7 18) (Some advertiser))) as H.
  cbv zeta in H. destruct H as (_ & H8 & _).
  apply H8. apply Qle_bool_iff. vm_compute. reflexivity.
Defined.

(** ** The present-day contribution of a record *)




(** The target-role record of a like made 2 days late, 10 days ago:
    [2.0 * 0.97^10 * 0.97^2]. *)
Example delayed_like_score :
  (get_effective_score delayed_like sim_start_date == 2 * 0.97 ^ 10 * 0.97 ^ 2)%Q.
Proof. vm_compute. reflexivity. Qed.

(** A record of base weight 1.0 and decay 0.05, 10 days old, is worth
    [0.95 ^ 10], about 0.5987; with decay 0 its worth does not change. *)
Example decay_ten_days :
  let a := mkUserAction "X" (Datetime.mkdate 2025 7 8) true
             (mkActionInfo 1.0 None 0.05 [common] false None) 0 in
  (get_effective_score a sim_start_date == 0.95 ^ 10)%Q
  /\ (0.5987 < get_effective_score a sim_start_date)%Q
  /\ (get_effective_score a sim_start_date < 0.5988)%Q.
Proof. cbv zeta. split; [|split]; vm_compute; reflexivity. Qed.

(** ** Badge tiers for a score *)

(** On an integer score between 0 and 100 the scan of the table succeeds,
    and the range it returns is the only one holding the score. *)
Lemma badge_for_integer_score (n : Z) :
  0 <= n <= 100 ->
  exists lo hi b,
    In ((lo, hi), b) BADGE_LEVELS
    /\ lo <= n <= hi
    /\ _get_badge_for_score (inject_Z n) = Some b
    /\ forall lo' hi' b', In ((lo', hi'), b') BADGE_LEVELS ->
                          lo' <= n <= hi' -> (lo', hi', b') = (lo, hi, b).
Proof.
  intros Hn.
  assert (Hcases : 0 <= n <= 29 \/ 30 <= n <= 59 \/ 60 <= n <= 79
                   \/ 80 <= n <= 94 \/ 95 <= n <= 100) by lia.
  assert (Hle : forall a b : Z, Qle_bool (inject_Z a) (inject_Z b) = (a <=? b)).
  { intros a b. unfold Qle_bool, inject_Z. simpl. rewrite !Z.mul_1_r. reflexivity. }
  assert (Huniq : forall lo hi b, In ((lo, hi), b) BADGE_LEVELS -> lo <= n <= hi ->
            forall lo' hi' b', In ((lo', hi'), b') BADGE_LEVELS ->
                               lo' <= n <= hi' -> (lo', hi', b') = (lo, hi, b)).
  { intros lo hi b Hin Hr lo' hi' b' Hin' Hr'.
    simpl in Hin, Hin'.
    repeat (destruct Hin as [Hin | Hin]; [inversion Hin; subst; clear Hin|]);
      try contradiction;
      repeat (destruct Hin' as [Hin' | Hin']; [inversion Hin'; subst; clear Hin'|]);
      try contradiction; try reflexivity; exfalso; lia. }
  unfold _get_badge_for_score. simpl.
  rewrite !Hle.
  destruct Hcases as [H | [H | [H | [H | H]]]].
  - exists 0, 29, (mkBadgeInfo "New" "No PAI coin trade, limited ads").
    split; [simpl; tauto|]. split; [lia|]. split.
    + destruct (Z.leb_spec 0 n); [|lia]. destruct (Z.leb_spec n 29); [|lia].
      reflexivity.
    + apply Huniq; [simpl; tauto | lia].
  - exists 30, 59, (mkBadgeInfo "Explorer" "Can view all ads, earn coins").
    split; [simpl; tauto|]. split; [lia|]. split.
    + destruct (Z.leb_spec 0 n); [|lia]. destruct (Z.leb_spec n 29); [lia|].
      destruct (Z.leb_spec 30 n); [|lia]. destruct (Z.leb_spec n 59); [|lia].
      reflexivity.
    + apply Huniq; [simpl; tauto | lia].
  - exists 60, 79, (mkBadgeInfo "Trusted" "Can trade coins, appear higher in feed").
    split; [simpl; tauto|]. split; [lia|]. split.
    + destruct (Z.leb_spec 0 n); [|lia]. destruct (Z.leb_spec n 29); [lia|].
      destruct (Z.leb_spec 30 n); [|lia]. destruct (Z.leb_spec n 59); [lia|].
      destruct (Z.leb_spec 60 n); [|lia]. destruct (Z.leb_spec n 79); [|lia].
      reflexivity.
    + apply Huniq; [simpl; tauto | lia].
  - exists 80, 94, (mkBadgeInfo "Elite" "Premium ads, faster rewards").
    split; [simpl; tauto|]. split; [lia|]. split.
    + destruct (Z.leb_spec 0 n); [|lia]. destruct (Z.leb_spec n 29); [lia|].
      destruct (Z.leb_spec 30 n); [|lia]. destruct (Z.leb_spec n 59); [lia|].
      destruct (Z.leb_spec 60 n); [|lia]. destruct (Z.leb_spec n 79); [lia|].
      destruct (Z.leb_spec 80 n); [|lia]. destruct (Z.leb_spec n 94); [|lia].
      reflexivity.
    + apply Huniq; [simpl; tauto | lia].
  - exists 95, 100, (mkBadgeInfo "Ambassador" "First access, spotlight ads, bonus coins").
    split; [simpl; tauto|]. split; [lia|]. split.
    + destruct (Z.leb_spec 0 n); [|lia]. destruct (Z.leb_spec n 29); [lia|].
      destruct (Z.leb_spec 30 n); [|lia]. destruct (Z.leb_spec n 59); [lia|].
      destruct (Z.leb_spec 60 n); [|lia]. destruct (Z.leb_spec n 79); [lia|].
      destruct (Z.leb_spec 80 n); [|lia]. destruct (Z.leb_spec n 94); [lia|].
      destruct (Z.leb_spec 95 n); [|lia]. destruct (Z.leb_spec n 100); [|lia].
      reflexivity.
    + apply Huniq; [simpl; tauto | lia].
Qed.

(** ** Resolving a participant *)

Lemma set_users_same (s : PaiSystem) : set_users s (users s) = s.
Proof. destruct s; reflexivity. Qed.

Lemma registered_same (s : PaiSystem) (key : string) (u : User) :
  users s !! key = Some u -> registered s key u = s.
Proof.
  intros H. unfold registered. rewrite (insert_id _ _ _ H). apply set_users_same.
Qed.

Lemma get_or_create_user_new (s : PaiSystem) (name : string)
    (user_type : option string) (creation_date : option Datetime.date) :
  users s !! name = None ->
  get_or_create_user s name user_type creation_date
  = (registered s name
       (User_init name (default (current_date s) creation_date) user_type),
     Ok (User_init name (default (current_date s) creation_date) user_type)).
Proof.
  intros H. unfold get_or_create_user. rewrite H. reflexivity.
Qed.

Lemma get_or_create_user_consistent (s : PaiSystem) (name : string)
    (user_type : option string) (creation_date : option Datetime.date) :
  role_consistent s name user_type ->
  get_or_create_user s name user_type creation_date
  = (registered s name (resolve s name user_type creation_date),
     Ok (resolve s name user_type creation_date)).
Proof.
  intros Hc. unfold resolve.
  destruct (users s !! name) as [u|] eqn:E.
  - unfold get_or_create_user. rewrite E.
    rewrite (registered_same _ _ _ E).
    destruct (truthy_str user_type) eqn:Et; [|reflexivity].
    rewrite (Hc u E Et). rewrite bool_decide_eq_true_2 by reflexivity.
    reflexivity.
  - rewrite (get_or_create_user_new _ _ _ _ E). reflexivity.
Qed.

Lemma get_or_create_user_mismatch (s : PaiSystem) (name : string) (u : User)
    (user_type : option string) (creation_date : option Datetime.date) :
  users s !! name = Some u -> truthy_str user_type = true -> type u <> user_type ->
  get_or_create_user s name user_type creation_date
  = (s, Raise (ValueError
          (String.append "User '" (String.append name "' type mismatch.")))).
Proof.
  intros E Et Hne. unfold get_or_create_user. rewrite E, Et.
  rewrite bool_decide_eq_false_2 by assumption. reflexivity.
Qed.

Lemma resolve_name (s : PaiSystem) (key : string) (user_type : option string)
    (creation_date : option Datetime.date) :
  registry_ok s -> name (resolve s key user_type creation_date) = key.
Proof.
  intros Hok. unfold resolve. destruct (users s !! key) as [u|] eqn:E.
  - apply (Hok _ _ E).
  - reflexivity.
Qed.

Lemma add_action_catalog (u : User) (action_type : string) (info : ActionInfo)
    (d : Datetime.date) (role : bool) (delay : Z) :
  ACTION_WEIGHTS !! action_type = Some info ->
  add_action u action_type d role delay
  = Ok (with_record u (mkUserAction action_type d role info delay)).
Proof.
  intros H. unfold add_action, UserAction_init. rewrite H.
  unfold with_record. simpl.
  destruct (last_action_date u); [|reflexivity].
  destruct (_ <? _); reflexivity.
Qed.

(** ** Submissions the dispatcher turns away *)

(** C2, as the code has it. A submission whose action type is not in the
    catalog raises nothing: [handle_user_action] returns [None] and the
    engine state is the one it was called with, so no participant is
    created or changed. *)
Theorem unknown_action_returns_none (s : PaiSystem) (user_name action_type : string)
    (user_type : option string) (action_date creation_date : option Datetime.date)
    (target_user_name target_user_type : option string)
    (target_creation_date : option Datetime.date) (delay_days target_delay_days : Z) :
  ACTION_WEIGHTS !! action_type = None ->
  handle_user_action s user_name action_type user_type action_date creation_date
    target_user_name target_user_type target_creation_date delay_days target_delay_days
  = (s, Ok None).
Proof.
  intros H. unfold handle_user_action. rewrite H. reflexivity.
Qed.

Lemma unknown_action_returns_none_witness :
  ACTION_WEIGHTS !! "TELEPORT"%string = None
  /\ handle_user_action demo_system "Sai" "TELEPORT" (Some advertiser) None None
       None None None 0 0
     = (demo_system, Ok None).
Proof.
  split; [vm_compute; reflexivity|].
  apply unknown_action_returns_none. vm_compute. reflexivity.
Defined.

(** C2, as stated, fails: for an action type absent from the catalog the
    call reports no error to the caller. *)
Lemma unknown_action_raises_nothing :
  ACTION_WEIGHTS !! "TELEPORT"%string = None
  /\ ~ exists e,
       snd (handle_user_action demo_system "Sai" "TELEPORT" (Some advertiser)
              None None None None None 0 0)
       = Raise e.
Proof.
  split; [vm_compute; reflexivity|].
  intros [e He]. vm_compute in He. discriminate He.
Qed.

Lemma get_or_create_user_returns (s s1 : PaiSystem) (name : string)
    (user_type : option string) (creation_date : option Datetime.date) (u : User) :
  get_or_create_user s name user_type creation_date = (s1, Ok u) ->
  role_consistent s name user_type
  /\ u = resolve s name user_type creation_date
  /\ s1 = registered s name u.
Proof.
  unfold get_or_create_user, resolve, role_consistent.
  destruct (users s !! name) as [v|] eqn:E.
  - destruct (truthy_str user_type) eqn:Et; cbn [andb].
    + destruct (bool_decide (type v = user_type)) eqn:Ed; cbn [negb].
      * intros H. injection H as <- <-. apply bool_decide_eq_true_1 in Ed.
        split; [|split].
        -- intros w Hw _. injection Hw as <-. assumption.
        -- reflexivity.
        -- symmetry. apply registered_same. assumption.
      * intros H. discriminate H.
    + intros H. injection H as <- <-. split; [|split].
      * intros w _ Hw. discriminate Hw.
      * reflexivity.
      * symmetry. apply registered_same. assumption.
  - intros H. injection H as <- <-. split; [|split].
    + intros w Hw. discriminate Hw.
    + reflexivity.
    + reflexivity.
Qed.

(** C8. When the action type is in the catalog and the acting participant,
    as the dispatcher resolves it with [get_or_create_user], has a role
    class that is not allowed for the type, [handle_user_action] raises
    nothing and returns the acting participant; the engine state is the one
    the resolution left, so no record is appended and no recompute runs: a
    registered participant, and the whole engine state with it, is as
    before the call. *)
Theorem ineligible_submission_rejected (s s1 : PaiSystem)
    (user_name action_type : string)
    (user_type : option string) (action_date creation_date : option Datetime.date)
    (target_user_name target_user_type : option string)
    (target_creation_date : option Datetime.date) (delay_days target_delay_days : Z)
    (info : ActionInfo) (acting : User) :
  ACTION_WEIGHTS !! action_type = Some info ->
  get_or_create_user s user_name user_type creation_date = (s1, Ok acting) ->
  py_in (type acting) (w_allowed_for info) = false ->
  handle_user_action s user_name action_type user_type action_date creation_date
    target_user_name target_user_type target_creation_date delay_days target_delay_days
  = (s1, Ok (Some user_name))
  /\ users s1 !! user_name = Some acting
  /\ (forall u, users s !! user_name = Some u ->
                s1 = s
                /\ acting = u
                /\ score acting = score u
                /\ action_history acting = action_history u)
  /\ (users s !! user_name = None ->
      action_history acting = [] /\ score acting = 0%Q /\ badge acting = None)
  /\ (forall key, key <> user_name -> users s1 !! key = users s !! key).
Proof.
  intros Hinfo Hget Hin.
  split.
  { unfold handle_user_action. rewrite Hinfo. cbv zeta. unfold bind.
    rewrite Hget. cbv beta iota. rewrite Hin. reflexivity. }
  apply get_or_create_user_returns in Hget.
  destruct Hget as (_ & Hres & ->).
  split; [apply lookup_insert_eq|].
  split; [|split].
  - intros u Hu. unfold resolve in Hres. rewrite Hu in Hres. subst acting.
    split; [apply registered_same; assumption|]. repeat split.
  - intros Hnone. unfold resolve in Hres. rewrite Hnone in Hres. subst acting.
    repeat split.
  - intros key Hne. unfold registered, set_users. cbn [users].
    apply lookup_insert_ne. congruence.
Qed.

Lemma ineligible_submission_rejected_witness :
  ACTION_WEIGHTS !! "GAVE_RATING"%string
  = Some (mkActionInfo 1.5 None 0.04 [common] false None)
  /\ get_or_create_user demo_system "Sai" (Some advertiser) None = (demo_system, Ok sai)
  /\ py_in (type sai) [common] = false
  /\ handle_user_action demo_system "Sai" "GAVE_RATING" (Some advertiser) None None
       None None None 0 0
     = (demo_system, Ok (Some "Sai"%string))
  /\ users demo_system !! "Sai"%string = Some sai.
Proof.
  assert (Hget : get_or_create_user demo_system "Sai" (Some advertiser) None
                 = (demo_system, Ok sai)) by (vm_compute; reflexivity).
  split; [vm_compute; reflexivity|].
  split; [exact Hget|].
  split; [vm_compute; reflexivity|].
  destruct (ineligible_submission_rejected demo_system demo_system "Sai" "GAVE_RATING"
              (Some advertiser) None None None None None 0 0
              (mkActionInfo 1.5 None 0.04 [common] false None) sai)
    as (Hrun & Hreg & _).
  - vm_compute. reflexivity.
  - exact Hget.
  - vm_compute. reflexivity.
  - split; assumption.
Defined.

(** The premise of C8 is that the eligibility test is reached.  A
    registered advertiser submitting under the role class "common" is
    stopped before it by the role-mismatch guard, which raises. *)
Example role_mismatch_raises :
  handle_user_action demo_system "Sai" "GAVE_RATING" (Some common) None None
    None None None 0 0
  = (demo_system, Raise (ValueError "User 'Sai' type mismatch.")).
Proof. vm_compute. reflexivity. Qed.

(** C10. A submission naming a participant that is not registered, with a
    catalog action type the supplied role class is not allowed for, still
    registers the participant: the registry gains an entry with an empty
    history, score 0 and no badge, and the call returns that participant. *)
Theorem rejected_submission_registers_actor (s : PaiSystem)
    (user_name action_type : string)
    (user_type : option string) (action_date creation_date : option Datetime.date)
    (target_user_name target_user_type : option string)
    (target_creation_date : option Datetime.date) (delay_days target_delay_days : Z)
    (info : ActionInfo) :
  users s !! user_name = None ->
  ACTION_WEIGHTS !! action_type = Some info ->
  py_in user_type (w_allowed_for info) = false ->
  exists s' u,
    handle_user_action s user_name action_type user_type action_date creation_date
      target_user_name target_user_type target_creation_date delay_days target_delay_days
    = (s', Ok (Some user_name))
    /\ users s' !! user_name = Some u
    /\ u = User_init user_name (default (current_date s) creation_date) user_type
    /\ action_history u = [] /\ score u = 0%Q /\ badge u = None
    /\ type u = user_type
    /\ (forall key, key <> user_name -> users s' !! key = users s !! key).
Proof.
  intros Hnone Hinfo Hin.
  exists (registered s user_name
            (User_init user_name (default (current_date s) creation_date) user_type)),
         (User_init user_name (default (current_date s) creation_date) user_type).
  split.
  - unfold handle_user_action. rewrite Hinfo. cbv zeta. unfold bind.
    rewrite (get_or_create_user_new _ _ _ _ Hnone). cbv beta iota.
    change (type (User_init user_name (default (current_date s) creation_date)
                            user_type)) with user_type.
    rewrite Hin. reflexivity.
  - split; [simpl; apply lookup_insert_eq|].
    repeat (split; [reflexivity|]).
    intros key Hne. simpl. apply lookup_insert_ne. congruence.
Qed.

Lemma rejected_submission_registers_actor_witness :
  users demo_system !! "Trupti"%string = None
  /\ ACTION_WEIGHTS !! "AD_POSTED_FREE"%string
     = Some (mkActionInfo 4.0 None 0.02 [advertiser] false None)
  /\ py_in (Some common) [advertiser] = false
  /\ exists s' u,
       handle_user_action demo_system "Trupti" "AD_POSTED_FREE" (Some common) None None
         None None None 0 0
       = (s', Ok (Some "Trupti"%string))
       /\ users s' !! "Trupti"%string = Some u
       /\ u = User_init "Trupti" (default (current_date demo_system) None) (Some common)
       /\ action_history u = [] /\ score u = 0%Q /\ badge u = None
       /\ type u = Some common
       /\ (forall key, key <> "Trupti"%string ->
                       users s' !! key = users demo_system !! key).
Proof.
  split; [vm_compute; reflexivity|].
  split; [vm_compute; reflexivity|].
  split; [reflexivity|].
  apply (rejected_submission_registers_actor demo_system "Trupti" "AD_POSTED_FREE"
           (Some common) None None None None None 0 0
           (mkActionInfo 4.0 None 0.02 [advertiser] false None)).
  - vm_compute. reflexivity.
  - vm_compute. reflexivity.
  - reflexivity.
Defined.

(** ** Accepted submissions *)

Lemma registered_registered (s : PaiSystem) (key : string) (u u' : User) :
  registered (registered s key u) key u' = registered s key u'.
Proof.
  unfold registered, set_users. cbn [users history_days inactivity_days current_date].
  rewrite insert_insert_eq. reflexivity.
Qed.

Lemma lookup_registered_eq (s : PaiSystem) (key : string) (u : User) :
  users (registered s key u) !! key = Some u.
Proof. unfold registered, set_users. cbn [users]. apply lookup_insert_eq. Qed.

Lemma lookup_registered_ne (s : PaiSystem) (key key' : string) (u : User) :
  key <> key' -> users (registered s key u) !! key' = users s !! key'.
Proof.
  intros H. unfold registered, set_users. cbn [users].
  apply lookup_insert_ne. assumption.
Qed.

Lemma recomputed_registered (s : PaiSystem) (key : string) (u v : User) :
  recomputed (registered s key u) v = recomputed s v.
Proof. reflexivity. Qed.

Lemma window_in_calendar_registered (s : PaiSystem) (key : string) (u : User) :
  window_in_calendar (registered s key u) <-> window_in_calendar s.
Proof. reflexivity. Qed.

Lemma update_user_score_registered_overflow (s : PaiSystem) (key : string) (u : User) :
  ~ window_in_calendar s ->
  update_user_score (registered s key u) key
  = (registered s key u, Raise OverflowError).
Proof.
  intros Hw.
  apply (update_user_score_overflow _ key u (lookup_registered_eq s key u)).
  rewrite window_in_calendar_registered. assumption.
Qed.

Lemma update_user_score_registered (s : PaiSystem) (key : string) (u : User) :
  window_in_calendar s ->
  update_user_score (registered s key u) key
  = (registered s key (recomputed s u), Ok tt).
Proof.
  intros Hw. apply (window_in_calendar_registered s key u) in Hw.
  rewrite (update_user_score_found _ key u (lookup_registered_eq s key u) Hw).
  rewrite recomputed_registered.
  change (set_users (registered s key u)
            (<[key := recomputed s u]> (users (registered s key u))))
    with (registered (registered s key u) key (recomputed s u)).
  rewrite registered_registered. reflexivity.
Qed.

Lemma name_with_record (u : User) (r : UserAction) : name (with_record u r) = name u.
Proof.
  unfold with_record. destruct (last_action_date u) as [d|]; [|reflexivity].
  destruct (_ <? _); reflexivity.
Qed.




(** One side of a submission: the participant is resolved, the record is
    appended to its history, and the participant is recomputed. *)
Lemma record_and_recompute (s : PaiSystem) (key action_type : string)
    (user_type : option string) (creation_date : option Datetime.date)
    (info : ActionInfo) (d : Datetime.date) (role : bool) (delay : Z)
    (B : Type) (k : M B) :
  registry_ok s ->
  window_in_calendar s ->
  ACTION_WEIGHTS !! action_type = Some info ->
  (actor <- lift (add_action (resolve s key user_type creation_date)
                    action_type d role delay) ;;
   _ <- store key actor ;;
   _ <- (fun s' => update_user_score s' (name actor)) ;;
   k) (registered s key (resolve s key user_type creation_date))
  = k (registered s key
         (recomputed s (with_record (resolve s key user_type creation_date)
                          (mkUserAction action_type d role info delay)))).
Proof.
  intros Hok Hw Hinfo.
  unfold bind at 1. unfold lift.
  rewrite (add_action_catalog _ _ _ _ _ _ Hinfo).
  unfold bind at 1. unfold store.
  change (set_users (registered s key (resolve s key user_type creation_date))
            (<[key := ?u]> (users (registered s key (resolve s key user_type creation_date)))))
    with (registered (registered s key (resolve s key user_type creation_date)) key u).
  rewrite registered_registered.
  unfold bind at 1.
  rewrite name_with_record, (resolve_name _ _ _ _ Hok).
  rewrite (update_user_score_registered _ _ _ Hw). reflexivity.
Qed.

(** The same when the cutoff is outside the calendar: the record is
    appended and the recompute raises [OverflowError]. *)
Lemma record_and_overflow (s : PaiSystem) (key action_type : string)
    (user_type : option string) (creation_date : option Datetime.date)
    (info : ActionInfo) (d : Datetime.date) (role : bool) (delay : Z)
    (B : Type) (k : M B) :
  registry_ok s ->
  ~ window_in_calendar s ->
  ACTION_WEIGHTS !! action_type = Some info ->
  (actor <- lift (add_action (resolve s key user_type creation_date)
                    action_type d role delay) ;;
   _ <- store key actor ;;
   _ <- (fun s' => update_user_score s' (name actor)) ;;
   k) (registered s key (resolve s key user_type creation_date))
  = (registered s key
       (with_record (resolve s key user_type creation_date)
          (mkUserAction action_type d role info delay)),
     Raise OverflowError).
Proof.
  intros Hok Hw Hinfo.
  unfold bind at 1. unfold lift.
  rewrite (add_action_catalog _ _ _ _ _ _ Hinfo).
  unfold bind at 1. unfold store.
  change (set_users (registered s key (resolve s key user_type creation_date))
            (<[key := ?u]> (users (registered s key (resolve s key user_type creation_date)))))
    with (registered (registered s key (resolve s key user_type creation_date)) key u).
  rewrite registered_registered.
  unfold bind at 1.
  rewrite name_with_record, (resolve_name _ _ _ _ Hok).
  rewrite (update_user_score_registered_overflow _ _ _ Hw). reflexivity.
Qed.

Lemma registry_ok_registered (s : PaiSystem) (key : string) (u : User) :
  registry_ok s -> name u = key -> registry_ok (registered s key u).
Proof.
  intros Hok Hn key' v Hv.
  destruct (decide (key = key')) as [<- | Hne].
  - rewrite lookup_registered_eq in Hv. injection Hv as <-. assumption.
  - rewrite (lookup_registered_ne _ _ _ _ Hne) in Hv. apply (Hok _ _ Hv).
Qed.

Lemma registry_ok_init (today : Datetime.date) : registry_ok (PaiSystem_init today).
Proof. intros key u H. cbn [PaiSystem_init users] in H. rewrite lookup_empty in H. discriminate H. Qed.



Lemma registry_ok_demo : registry_ok demo_system.
Proof.
  intros key u H. unfold demo_system in H. cbn [users] in H.
  apply lookup_singleton_Some in H. destruct H as [<- <-]. reflexivity.
Defined.


(** ** A score between two tiers *)

(** C3 fails on the code. The score 29.5 lies in [0,100] and in none of
    the integer ranges of [BADGE_LEVELS]: [_get_badge_for_score] falls
    through the scan and both out-of-range tests and returns [None].  The
    score is one a recompute produces: 15 + 8 + 3.5 from the three actions
    and 3 of tenure bonus leave the participant with score 29.5 and no
    badge. *)
Theorem badge_undefined_between_tiers :
  (0 <= 29.5)%Q /\ (29.5 <= 100)%Q
  /\ (forall lo hi b, In ((lo, hi), b) BADGE_LEVELS ->
        ~ ((inject_Z lo <= 29.5)%Q /\ (29.5 <= inject_Z hi)%Q))
  /\ _get_badge_for_score 29.5 = None
  /\ exists u,
       users three_actions !! "Kavita"%string = Some u
       /\ (score u == 29.5)%Q
       /\ badge u = None.
Proof.
  split; [discriminate|]. split; [discriminate|].
  split.
  { intros lo hi b Hin [Hlo Hhi]. simpl in Hin.
    repeat (destruct Hin as [Hin | Hin]; [inversion Hin; subst; clear Hin|]);
      try contradiction;
      first [ apply Hlo; reflexivity | apply Hhi; reflexivity ]. }
  split; [vm_compute; reflexivity|].
  destruct (users three_actions !! "Kavita"%string) as [u|] eqn:E.
  - exists u. split; [reflexivity|].
    vm_compute in E. injection E as <-. split; reflexivity.
  - vm_compute in E. discriminate E.
Qed.

(** ** The registry invariant *)

Lemma get_or_create_user_outcome (s : PaiSystem) (name : string)
    (user_type : option string) (creation_date : option Datetime.date) :
  (exists e, get_or_create_user s name user_type creation_date = (s, Raise e))
  \/ (role_consistent s name user_type
      /\ get_or_create_user s name user_type creation_date
         = (registered s name (resolve s name user_type creation_date),
            Ok (resolve s name user_type creation_date))).
Proof.
  destruct (users s !! name) as [v|] eqn:E.
  - destruct (truthy_str user_type) eqn:Et.
    + destruct (decide (type v = user_type)) as [Heq | Hne].
      * right. assert (Hc : role_consistent s name user_type).
        { intros w Hw _. rewrite E in Hw. injection Hw as <-. assumption. }
        split; [assumption | apply get_or_create_user_consistent; assumption].
      * left. eexists. apply (get_or_create_user_mismatch _ _ v); assumption.
    + right. assert (Hc : role_consistent s name user_type).
      { intros w _ Hw. rewrite Et in Hw. discriminate Hw. }
      split; [assumption | apply get_or_create_user_consistent; assumption].
  - right. assert (Hc : role_consistent s name user_type).
    { intros w Hw. rewrite E in Hw. discriminate Hw. }
    split; [assumption | apply get_or_create_user_consistent; assumption].
Qed.

Lemma registry_ok_recorded (s : PaiSystem) (key : string)
    (user_type : option string) (creation_date : option Datetime.date)
    (r : UserAction) :
  registry_ok s ->
  registry_ok (registered s key
                 (recomputed s (with_record (resolve s key user_type creation_date) r))).
Proof.
  intros Hok. apply registry_ok_registered; [assumption|].
  unfold recomputed. cbn [name]. rewrite name_with_record.
  apply resolve_name. assumption.
Qed.

(** Every object of the registry stays stored under its own name, whatever
    a submission does and however it ends. *)
Lemma handle_user_action_registry_ok (s : PaiSystem) (user_name action_type : string)
    (user_type : option string) (action_date creation_date : option Datetime.date)
    (target_user_name target_user_type : option string)
    (target_creation_date : option Datetime.date) (delay_days target_delay_days : Z) :
  registry_ok s ->
  registry_ok
    (fst (handle_user_action s user_name action_type user_type action_date
            creation_date target_user_name target_user_type target_creation_date
            delay_days target_delay_days)).
Proof.
  intros Hok. unfold handle_user_action.
  destruct (ACTION_WEIGHTS !! action_type) as [info|] eqn:Hinfo; [|assumption].
  cbv zeta. unfold bind at 1.
  destruct (get_or_create_user_outcome s user_name user_type creation_date)
    as [[e He] | [Hc Hget]]; rewrite ?He, ?Hget; cbv beta iota; [assumption|].
  destruct (py_in _ _); cbn [negb]; cbv iota.
  2:{ cbn [ret fst]. apply registry_ok_registered; [assumption|].
      apply resolve_name. assumption. }
  destruct (window_in_calendar_dec s) as [Hcal | Hcal].
  2:{ rewrite (record_and_overflow s user_name action_type user_type creation_date
                 info _ true delay_days _ _ Hok Hcal Hinfo).
      cbn [fst]. apply registry_ok_registered; [assumption|].
      rewrite name_with_record. apply resolve_name. assumption. }
  rewrite (record_and_recompute s user_name action_type user_type creation_date
             info _ true delay_days _ _ Hok Hcal Hinfo).
  match goal with
  | |- context [registered s user_name ?u] => set (ua := u)
  end.
  assert (Hok2 : registry_ok (registered s user_name ua))
    by (apply registry_ok_recorded; assumption).
  destruct (w_affects_target info); [|exact Hok2].
  destruct (truthy_str target_user_name); cbn [negb]; cbv iota; [|exact Hok2].
  unfold bind at 1.
  destruct (get_or_create_user_outcome (registered s user_name ua)
              (default EmptyString target_user_name) target_user_type
              target_creation_date)
    as [[e He] | [Hc2 Hget2]]; rewrite ?He, ?Hget2; cbv beta iota; [exact Hok2|].
  rewrite (record_and_recompute (registered s user_name ua)
             (default EmptyString target_user_name) action_type target_user_type
             target_creation_date info _ false _ _ _ Hok2 Hcal Hinfo).
  cbn [ret fst]. apply registry_ok_recorded. assumption.
Qed.

(** ** Advancing the clock *)

Lemma recomputed_ext (s s' : PaiSystem) (u : User) :
  current_date s = current_date s' -> history_days s = history_days s' ->
  recomputed s u = recomputed s' u.
Proof.
  intros Hd Hh.
  unfold recomputed, retained, cutoff, activity, tenure_bonus, _calculate_age_score.
  rewrite Hd, Hh. reflexivity.
Qed.

Lemma recomputed_again (s : PaiSystem) (u : User) :
  recomputed s (recomputed s u) = recomputed s u.
Proof.
  rewrite <- (recomputed_idempotent s (users s) u) at 2.
  rewrite set_users_same. reflexivity.
Qed.



Lemma update_each_recomputes (names : list string) :
  forall s : PaiSystem,
    window_in_calendar s ->
    (forall k, k ∈ names -> is_Some (users s !! k)) ->
    exists m : gmap string User,
      update_each s names = (set_users s m, Ok tt)
      /\ forall k, m !! k = if bool_decide (k ∈ names)
                            then recomputed s <$> users s !! k
                            else users s !! k.
Proof.
  induction names as [|n names IH]; intros s Hcal Hreg.
  - exists (users s). split.
    + cbn [update_each]. rewrite set_users_same. reflexivity.
    + intros k. rewrite bool_decide_eq_false_2; [reflexivity|].
      apply not_elem_of_nil.
  - destruct (Hreg n) as [u Hu]; [apply list_elem_of_here|].
    cbn [update_each]. rewrite (update_user_score_found s n u Hu Hcal).
    set (s1 := set_users s (<[n := recomputed s u]> (users s))).
    destruct (IH s1) as (m & Hrun & Hm).
    { exact Hcal. }
    { intros k Hk. unfold s1, set_users. cbn [users].
      destruct (decide (n = k)) as [<- | Hne].
      - rewrite lookup_insert_eq. eauto.
      - rewrite lookup_insert_ne by assumption.
        apply Hreg. apply list_elem_of_further. assumption. }
    exists m. split.
    + rewrite Hrun. reflexivity.
    + intros k. rewrite Hm.
      assert (Hrec : forall v, recomputed s1 v = recomputed s v)
        by (intros v; apply recomputed_ext; reflexivity).
      unfold s1 at 2 3, set_users. cbn [users].
      destruct (decide (n = k)) as [<- | Hne].
      * rewrite lookup_insert_eq, Hu. cbn [fmap option_fmap option_map].
        rewrite Hrec, recomputed_again.
        rewrite (bool_decide_eq_true_2 (n ∈ n :: names)) by apply list_elem_of_here.
        destruct (bool_decide (n ∈ names)); reflexivity.
      * rewrite lookup_insert_ne by assumption.
        destruct (bool_decide (k ∈ names)) eqn:Ek.
        -- apply bool_decide_eq_true_1 in Ek.
           rewrite bool_decide_eq_true_2 by (apply list_elem_of_further; assumption).
           destruct (users s !! k); cbn [fmap option_fmap option_map];
             [rewrite Hrec|]; reflexivity.
        -- apply bool_decide_eq_false_1 in Ek.
           rewrite bool_decide_eq_false_2; [reflexivity|].
           intros Hin. apply elem_of_cons in Hin. destruct Hin; [congruence|contradiction].
Qed.

Lemma cutoff_set_current_date (s : PaiSystem) (d : Datetime.date) :
  cutoff (set_current_date s d) = Datetime.toordinal d - history_days s.
Proof. reflexivity. Qed.

Lemma window_after_advance (s : PaiSystem) (days : Z) :
  advance_in_calendar s days ->
  window_in_calendar (set_current_date s (days_later (current_date s) days)).
Proof.
  intros [Hd Hw]. unfold window_in_calendar.
  rewrite cutoff_set_current_date, toordinal_days_later by lia. exact Hw.
Qed.

Lemma advance_time_in_result (order : list string) (s : PaiSystem) (days : Z) :
  (forall k, k ∈ order <-> is_Some (users s !! k)) ->
  advance_in_calendar s days ->
  advance_time_in order s days
  = (let s1 := set_current_date s (days_later (current_date s) days) in
     (set_users s1 (recomputed s1 <$> users s), Ok tt)).
Proof.
  intros Hcover Hcal. unfold advance_time_in.
  rewrite (add_days_in_calendar _ _ (proj1 Hcal)). cbv beta iota zeta.
  set (s1 := set_current_date s (days_later (current_date s) days)).
  destruct (update_each_recomputes order s1) as (m & Hrun & Hm).
  { apply window_after_advance. assumption. }
  { intros k Hk. apply Hcover. assumption. }
  rewrite Hrun. f_equal. f_equal. apply map_eq. intros k.
  rewrite Hm, lookup_fmap.
  change (users s1) with (users s).
  destruct (bool_decide (k ∈ order)) eqn:Ek; [reflexivity|].
  apply bool_decide_eq_false_1 in Ek.
  destruct (users s !! k) as [u|] eqn:Eu; [|reflexivity].
  exfalso. apply Ek. apply Hcover. eauto.
Qed.

(** When the new date is outside the calendar, [advance_time] raises
    [OverflowError] before the clock is assigned. *)
Lemma advance_time_in_overflow (order : list string) (s : PaiSystem) (days : Z) :
  ~ (1 <= Datetime.toordinal (current_date s) + days <= Datetime.MAXORDINAL) ->
  advance_time_in order s days = (s, Raise OverflowError).
Proof.
  intros H. unfold advance_time_in.
  rewrite (add_days_overflow _ _ H). reflexivity.
Qed.

(** On the last day of the calendar the clock cannot be advanced. *)
Example advance_time_overflow_example :
  let s := mkPaiSystem (users demo_system) 30 7 (Datetime.mkdate 9999 12 31) in
  advance_time s 1 = (s, Raise OverflowError).
Proof. vm_compute. reflexivity. Qed.

Lemma map_keys_cover (s : PaiSystem) (k : string) :
  k ∈ map fst (map_to_list (users s)) <-> is_Some (users s !! k).
Proof.
  split.
  - intros Hin. apply list_elem_of_In in Hin. apply in_map_iff in Hin.
    destruct Hin as ([k' u] & Hk & Hin). cbn [fst] in Hk. subst k'.
    apply list_elem_of_In in Hin. apply elem_of_map_to_list in Hin. eauto.
  - intros [u Hu]. apply list_elem_of_In. apply in_map_iff.
    exists (k, u). split; [reflexivity|].
    apply list_elem_of_In. apply elem_of_map_to_list. assumption.
Qed.

Lemma advance_time_result (s : PaiSystem) (days : Z) :
  advance_in_calendar s days ->
  advance_time s days
  = (let s1 := set_current_date s (days_later (current_date s) days) in
     (set_users s1 (recomputed s1 <$> users s), Ok tt)).
Proof.
  intros Hcal. unfold advance_time.
  apply advance_time_in_result; [apply map_keys_cover | assumption].
Qed.


Lemma cutoff_set_users (s : PaiSystem) (m : gmap string User) :
  cutoff (set_users s m) = cutoff s.
Proof. reflexivity. Qed.














(** ** Participants without recent activity *)

Lemma recomputed_no_activity (s : PaiSystem) (u : User) :
  retained s u = [] ->
  action_history (recomputed s u) = []
  /\ (score (recomputed s u) == tenure_bonus s u)%Q
  /\ badge (recomputed s u)
     = Some (mkBadgeInfo "New" "No PAI coin trade, limited ads").
Proof.
  intros Hr. unfold recomputed. cbn [score badge action_history]. rewrite Hr.
  split; [reflexivity|].
  rewrite tenure_bonus_by_months. unfold age_multiplier_of_months.
  change (activity s []) with 0%Q.
  destruct (96 <=? total_months s u); [split; vm_compute; reflexivity|].
  destruct (60 <=? total_months s u); [split; vm_compute; reflexivity|].
  destruct (24 <=? total_months s u); split; vm_compute; reflexivity.
Qed.

Lemma retained_none (s : PaiSystem) (u : User) :
  (forall a, In a (action_history u) -> Datetime.toordinal (date a) < cutoff s) ->
  retained s u = [].
Proof.
  intros Hold. unfold retained.
  induction (action_history u) as [|a h IH]; [reflexivity|].
  cbn [List.filter]. unfold in_window at 1.
  destruct (Z.leb_spec (cutoff s) (Datetime.toordinal (date a))) as [Hle | Hlt].
  - specialize (Hold a (or_introl eq_refl)). lia.
  - apply IH. intros b Hb. apply Hold. right. assumption.
Qed.

(** While the cutoff is a day of the calendar, a participant all of whose
    records are older than the cutoff is left by a recompute with an empty
    history, the tenure bonus as its score, and the badge "New", whatever
    the account age. *)
Theorem recompute_without_recent_activity (s : PaiSystem) (user_name : string)
    (u : User) :
  users s !! user_name = Some u ->
  window_in_calendar s ->
  (forall a, In a (action_history u) -> Datetime.toordinal (date a) < cutoff s) ->
  exists s' u',
    update_user_score s user_name = (s', Ok tt)
    /\ users s' !! user_name = Some u'
    /\ action_history u' = []
    /\ (score u' == tenure_bonus s u)%Q
    /\ badge u' = Some (mkBadgeInfo "New" "No PAI coin trade, limited ads").
Proof.
  intros Hu Hcal Hold.
  exists (registered s user_name (recomputed s u)), (recomputed s u).
  split; [apply update_user_score_found; assumption|].
  split; [apply lookup_registered_eq|].
  apply recomputed_no_activity. apply retained_none. assumption.
Qed.

Lemma recompute_without_recent_activity_witness :
  exists s' u',
    update_user_score dormant_system "Sai" = (s', Ok tt)
    /\ users s' !! "Sai"%string = Some u'
    /\ action_history u' = []
    /\ (score u' == 3)%Q.
Proof.
  destruct (recompute_without_recent_activity dormant_system "Sai" sai)
    as (s' & u' & Hrun & Hu' & Hh & Hs & _).
  - reflexivity.
  - vm_compute. split; discriminate.
  - intros a Hin. cbn [action_history sai sai_history In] in Hin.
    destruct Hin as [<- | [<- | [<- | []]]]; vm_compute; reflexivity.
  - exists s', u'. split; [exact Hrun|]. split; [exact Hu'|]. split; [exact Hh|].
    rewrite Hs. vm_compute. reflexivity.
Defined.



(** ** Further outcomes of a submission *)

(** A submission under a role class that contradicts the registered one of
    the acting participant raises the type-mismatch [ValueError] and leaves
    the engine as it was: nothing is recorded and nothing is recomputed. *)
Theorem actor_role_mismatch_raises (s : PaiSystem) (user_name action_type : string)
    (user_type : option string) (action_date creation_date : option Datetime.date)
    (target_user_name target_user_type : option string)
    (target_creation_date : option Datetime.date) (delay_days target_delay_days : Z)
    (info : ActionInfo) (u : User) :
  ACTION_WEIGHTS !! action_type = Some info ->
  users s !! user_name = Some u ->
  truthy_str user_type = true ->
  type u <> user_type ->
  handle_user_action s user_name action_type user_type action_date creation_date
    target_user_name target_user_type target_creation_date delay_days target_delay_days
  = (s, Raise (ValueError
          (String.append "User '" (String.append user_name "' type mismatch.")))).
Proof.
  intros Hinfo Hu Ht Hne.
  unfold handle_user_action. rewrite Hinfo. cbv zeta. unfold bind at 1.
  rewrite (get_or_create_user_mismatch s user_name u user_type creation_date Hu Ht Hne).
  reflexivity.
Qed.

Lemma actor_role_mismatch_raises_witness :
  handle_user_action demo_system "Sai" "LOGIN" (Some common) None None
    None None None 0 0
  = (demo_system, Raise (ValueError "User 'Sai' type mismatch.")).
Proof.
  apply (actor_role_mismatch_raises demo_system "Sai" "LOGIN" (Some common)
           None None None None None 0 0 login_info sai).
  - vm_compute. reflexivity.
  - reflexivity.
  - reflexivity.
  - discriminate.
Defined.

(** The acting side of an accepted submission, up to the test for a
    target. *)
Lemma actor_side (s : PaiSystem) (user_name action_type : string)
    (user_type : option string) (action_date creation_date : option Datetime.date)
    (target_user_name target_user_type : option string)
    (target_creation_date : option Datetime.date) (delay_days target_delay_days : Z)
    (info : ActionInfo) :
  registry_ok s ->
  window_in_calendar s ->
  ACTION_WEIGHTS !! action_type = Some info ->
  role_consistent s user_name user_type ->
  py_in (type (resolve s user_name user_type creation_date)) (w_allowed_for info) = true ->
  handle_user_action s user_name action_type user_type action_date creation_date
    target_user_name target_user_type target_creation_date delay_days target_delay_days
  = (if w_affects_target info then
       if negb (truthy_str target_user_name) then ret (Some user_name)
       else
         target <- (fun s' => get_or_create_user s'
                                (default EmptyString target_user_name)
                                target_user_type target_creation_date) ;;
         target <- lift (add_action target action_type
                           (default (current_date s) action_date) false
                           (if target_delay_days =? 0 then delay_days
                            else target_delay_days)) ;;
         _ <- store (default EmptyString target_user_name) target ;;
         _ <- (fun s' => update_user_score s' (name target)) ;;
         ret (Some user_name)
     else ret (Some user_name))
      (registered s user_name
         (recomputed s
            (with_record (resolve s user_name user_type creation_date)
               (mkUserAction action_type (default (current_date s) action_date)
                  true info delay_days)))).
Proof.
  intros Hok Hcal Hinfo Hca Hin.
  unfold handle_user_action. rewrite Hinfo. cbv zeta.
  unfold bind at 1.
  rewrite (get_or_create_user_consistent _ _ _ _ Hca).
  cbv beta iota. rewrite Hin.
  change (negb true) with false. cbv iota.
  rewrite (record_and_recompute s user_name action_type user_type creation_date
             info _ true delay_days _ _ Hok Hcal Hinfo).
  reflexivity.
Qed.

(** The acting side when the cutoff is outside the calendar: the record is
    appended to the submitter's history and the recompute raises
    [OverflowError], which ends the submission. *)
Lemma actor_side_overflow (s : PaiSystem) (user_name action_type : string)
    (user_type : option string) (action_date creation_date : option Datetime.date)
    (target_user_name target_user_type : option string)
    (target_creation_date : option Datetime.date) (delay_days target_delay_days : Z)
    (info : ActionInfo) :
  registry_ok s ->
  ~ window_in_calendar s ->
  ACTION_WEIGHTS !! action_type = Some info ->
  role_consistent s user_name user_type ->
  py_in (type (resolve s user_name user_type creation_date)) (w_allowed_for info) = true ->
  handle_user_action s user_name action_type user_type action_date creation_date
    target_user_name target_user_type target_creation_date delay_days target_delay_days
  = (registered s user_name
       (with_record (resolve s user_name user_type creation_date)
          (mkUserAction action_type (default (current_date s) action_date)
             true info delay_days)),
     Raise OverflowError).
Proof.
  intros Hok Hcal Hinfo Hca Hin.
  unfold handle_user_action. rewrite Hinfo. cbv zeta.
  unfold bind at 1.
  rewrite (get_or_create_user_consistent _ _ _ _ Hca).
  cbv beta iota. rewrite Hin.
  change (negb true) with false. cbv iota.
  rewrite (record_and_overflow s user_name action_type user_type creation_date
             info _ true delay_days _ _ Hok Hcal Hinfo).
  reflexivity.
Qed.







(** ** Every outcome of a submission *)

Lemma get_or_create_user_result (s : PaiSystem) (name : string)
    (user_type : option string) (creation_date : option Datetime.date) :
  get_or_create_user s name user_type creation_date = (s, Raise (mismatch_error name))
  \/ (role_consistent s name user_type
      /\ get_or_create_user s name user_type creation_date
         = (registered s name (resolve s name user_type creation_date),
            Ok (resolve s name user_type creation_date))).
Proof.
  destruct (users s !! name) as [v|] eqn:E.
  - destruct (truthy_str user_type) eqn:Et.
    + destruct (decide (type v = user_type)) as [Heq | Hne].
      * right. assert (Hc : role_consistent s name user_type).
        { intros w Hw _. rewrite E in Hw. injection Hw as <-. assumption. }
        split; [assumption | apply get_or_create_user_consistent; assumption].
      * left. apply (get_or_create_user_mismatch _ _ v); assumption.
    + right. assert (Hc : role_consistent s name user_type).
      { intros w _ Hw. rewrite Et in Hw. discriminate Hw. }
      split; [assumption | apply get_or_create_user_consistent; assumption].
  - right. assert (Hc : role_consistent s name user_type).
    { intros w Hw. rewrite E in Hw. discriminate Hw. }
    split; [assumption | apply get_or_create_user_consistent; assumption].
Qed.

(** The six ways a submission of a catalog action type can end. *)
Lemma handle_user_action_cases (s : PaiSystem) (user_name action_type : string)
    (user_type : option string) (action_date creation_date : option Datetime.date)
    (target_user_name target_user_type : option string)
    (target_creation_date : option Datetime.date) (delay_days target_delay_days : Z)
    (info : ActionInfo) :
  registry_ok s ->
  ACTION_WEIGHTS !! action_type = Some info ->
  let d := default (current_date s) action_date in
  let a := resolve s user_name user_type creation_date in
  let ua := recomputed s (with_record a
                            (mkUserAction action_type d true info delay_days)) in
  let s2 := registered s user_name ua in
  let tn := default EmptyString target_user_name in
  let t := resolve s2 tn target_user_type target_creation_date in
  let ut := recomputed s
              (with_record t
                 (mkUserAction action_type d false info
                    (if target_delay_days =? 0 then delay_days
                     else target_delay_days))) in
  let res :=
    handle_user_action s user_name action_type user_type action_date creation_date
      target_user_name target_user_type target_creation_date
      delay_days target_delay_days in
  res = (s, Raise (mismatch_error user_name))
  \/ res = (registered s user_name a, Ok (Some user_name))
  \/ res = (s2, Ok (Some user_name))
  \/ (res = (s2, Raise (mismatch_error tn)) /\ target_user_name = Some tn)
  \/ (res = (registered s2 tn ut, Ok (Some user_name)) /\ target_user_name = Some tn)
  \/ (res = (registered s user_name
               (with_record a (mkUserAction action_type d true info delay_days)),
             Raise OverflowError)
      /\ ~ window_in_calendar s).
Proof.
  intros Hok Hinfo d a ua s2 tn t ut res.
  destruct (get_or_create_user_result s user_name user_type creation_date)
    as [Hraise | [Hc Hget]].
  { left. unfold res, handle_user_action. rewrite Hinfo. cbv zeta.
    unfold bind at 1. rewrite Hraise. reflexivity. }
  destruct (py_in (type a) (w_allowed_for info)) eqn:Hin.
  2:{ right; left. unfold res, handle_user_action. rewrite Hinfo. cbv zeta.
      unfold bind at 1. rewrite Hget. cbv beta iota. fold a. rewrite Hin.
      reflexivity. }
  right; right.
  destruct (window_in_calendar_dec s) as [Hcal | Hcal].
  2:{ right; right; right. split; [|assumption]. unfold res.
      apply (actor_side_overflow s user_name action_type user_type action_date
               creation_date target_user_name target_user_type
               target_creation_date delay_days target_delay_days info
               Hok Hcal Hinfo Hc Hin). }
  assert (Hname : name ua = user_name).
  { unfold ua, recomputed. cbn [name]. rewrite name_with_record.
    apply resolve_name. assumption. }
  assert (Hok2 : registry_ok s2) by (apply registry_ok_registered; assumption).
  unfold res.
  rewrite (actor_side s user_name action_type user_type action_date creation_date
             target_user_name target_user_type target_creation_date
             delay_days target_delay_days info Hok Hcal Hinfo Hc Hin).
  fold d. fold a. fold ua. fold s2. fold tn.
  destruct (w_affects_target info); [|left; reflexivity].
  destruct (truthy_str target_user_name) eqn:Htr; cbn [negb]; cbv iota;
    [|left; reflexivity].
  assert (Htn : target_user_name = Some tn).
  { unfold tn. destruct target_user_name; [reflexivity | discriminate Htr]. }
  right.
  destruct (get_or_create_user_result s2 tn target_user_type target_creation_date)
    as [Hraise | [Hc2 Hget2]].
  { left. unfold bind at 1. cbv beta. rewrite Hraise.
    split; [reflexivity | assumption]. }
  right; left. unfold bind at 1. cbv beta. rewrite Hget2. cbv beta iota.
  rewrite (record_and_recompute s2 tn action_type target_user_type
             target_creation_date info d false _ _ _ Hok2 Hcal Hinfo).
  fold t. split; [reflexivity | assumption].
Qed.

Lemma unknown_action_returns_none_aux (s : PaiSystem) (user_name action_type : string)
    (user_type : option string) (action_date creation_date : option Datetime.date)
    (target_user_name target_user_type : option string)
    (target_creation_date : option Datetime.date) (delay_days target_delay_days : Z) :
  ACTION_WEIGHTS !! action_type = None ->
  handle_user_action s user_name action_type user_type action_date creation_date
    target_user_name target_user_type target_creation_date delay_days target_delay_days
  = (s, Ok None).
Proof.
  intros H. unfold handle_user_action. rewrite H. reflexivity.
Qed.



Lemma same_identity_refl (u : User) : same_identity u u.
Proof. repeat split. Qed.

Lemma same_identity_recorded (s : PaiSystem) (u : User) (r : UserAction) :
  same_identity u (recomputed s (with_record u r)).
Proof.
  unfold same_identity, recomputed. cbn [name type creation_date].
  unfold with_record.
  destruct (last_action_date u) as [l|]; [destruct (_ <? _)|]; repeat split.
Qed.

Lemma same_identity_appended (u : User) (r : UserAction) :
  same_identity u (with_record u r).
Proof.
  unfold same_identity, with_record.
  destruct (last_action_date u) as [l|]; [destruct (_ <? _)|]; repeat split.
Qed.

Lemma keeps_identities_refl (s : PaiSystem) : keeps_identities s s.
Proof. intros key u Hu. exists u. split; [assumption | apply same_identity_refl]. Qed.

Lemma keeps_identities_trans (s1 s2 s3 : PaiSystem) :
  keeps_identities s1 s2 -> keeps_identities s2 s3 -> keeps_identities s1 s3.
Proof.
  intros H12 H23 key u Hu.
  destruct (H12 key u Hu) as (u2 & Hu2 & (Hn2 & Ht2 & Hc2)).
  destruct (H23 key u2 Hu2) as (u3 & Hu3 & (Hn3 & Ht3 & Hc3)).
  exists u3. split; [assumption|]. repeat split; congruence.
Qed.

Lemma keeps_identities_registered (s : PaiSystem) (k : string) (v : User) :
  (forall u, users s !! k = Some u -> same_identity u v) ->
  keeps_identities s (registered s k v).
Proof.
  intros Hv key u Hu. destruct (decide (k = key)) as [<- | Hne].
  - exists v. split; [apply lookup_registered_eq | apply Hv; assumption].
  - exists u. split; [|apply same_identity_refl].
    rewrite lookup_registered_ne by assumption. assumption.
Qed.

Lemma keeps_identities_resolved (s : PaiSystem) (k : string)
    (user_type : option string) (creation_date : option Datetime.date) :
  keeps_identities s (registered s k (resolve s k user_type creation_date)).
Proof.
  apply keeps_identities_registered. intros u Hu.
  unfold resolve. rewrite Hu. apply same_identity_refl.
Qed.

Lemma keeps_identities_recorded (s s0 : PaiSystem) (k : string)
    (user_type : option string) (creation_date : option Datetime.date)
    (r : UserAction) :
  keeps_identities s
    (registered s k (recomputed s0 (with_record (resolve s k user_type creation_date) r))).
Proof.
  apply keeps_identities_registered. intros u Hu.
  unfold resolve. rewrite Hu. apply same_identity_recorded.
Qed.

Lemma keeps_identities_appended (s : PaiSystem) (k : string)
    (user_type : option string) (creation_date : option Datetime.date)
    (r : UserAction) :
  keeps_identities s
    (registered s k (with_record (resolve s k user_type creation_date) r)).
Proof.
  apply keeps_identities_registered. intros u Hu.
  unfold resolve. rewrite Hu. apply same_identity_appended.
Qed.

(** Whatever a submission does and however it ends, no participant leaves
    the registry, and every registered participant keeps its name, its role
    class and its creation date. *)
Theorem submission_keeps_identities (s : PaiSystem) (user_name action_type : string)
    (user_type : option string) (action_date created : option Datetime.date)
    (target_user_name target_user_type : option string)
    (target_creation_date : option Datetime.date) (delay_days target_delay_days : Z)
    (key : string) (u : User) :
  registry_ok s ->
  users s !! key = Some u ->
  exists u',
    users (fst (handle_user_action s user_name action_type user_type action_date
                  created target_user_name target_user_type
                  target_creation_date delay_days target_delay_days)) !! key
    = Some u'
    /\ name u' = name u /\ type u' = type u /\ creation_date u' = creation_date u.
Proof.
  intros Hok Hu.
  enough (Hk : keeps_identities s
                 (fst (handle_user_action s user_name action_type user_type
                         action_date created target_user_name target_user_type
                         target_creation_date delay_days target_delay_days)))
    by (apply (Hk key u Hu)).
  destruct (ACTION_WEIGHTS !! action_type) as [info|] eqn:Hinfo.
  2:{ rewrite unknown_action_returns_none_aux by assumption.
      apply keeps_identities_refl. }
  pose proof (handle_user_action_cases s user_name action_type user_type action_date
                created target_user_name target_user_type target_creation_date
                delay_days target_delay_days info Hok Hinfo) as Hcases.
  cbv zeta in Hcases.
  destruct Hcases as [H | [H | [H | [[H _] | [[H _] | [H _]]]]]]; rewrite H; cbn [fst].
  - apply keeps_identities_refl.
  - apply keeps_identities_resolved.
  - apply keeps_identities_recorded.
  - apply keeps_identities_recorded.
  - eapply keeps_identities_trans; apply keeps_identities_recorded.
  - apply keeps_identities_appended.
Qed.

Lemma submission_keeps_identities_witness :
  exists u',
    users (fst (handle_user_action demo_system "Trupti" "AD_LIKED" (Some common)
                  None None (Some "Sai"%string) (Some advertiser) None 2 0))
      !! "Sai"%string
    = Some u'
    /\ name u' = "Sai"%string /\ type u' = Some advertiser
    /\ creation_date u' = Datetime.mkdate 2025 1 5.
Proof.
  apply (submission_keeps_identities demo_system "Trupti" "AD_LIKED" (Some common)
           None None (Some "Sai"%string) (Some advertiser) None 2 0 "Sai" sai
           registry_ok_demo).
  reflexivity.
Defined.

Lemma handle_user_action_registry_ok_witness :
  registry_ok
    (fst (handle_user_action demo_system "Trupti" "AD_LIKED" (Some common)
            None None (Some "Sai"%string) (Some advertiser) None 2 0)).
Proof.
  apply handle_user_action_registry_ok. exact registry_ok_demo.
Defined.

(** ** The badge of every score *)

(** Case analysis on the comparisons of [_get_badge_for_score], closing the
    cases the hypotheses exclude. *)
Ltac badge_cases :=
  unfold _get_badge_for_score, Qlt_bool;
  cbn [find BADGE_LEVELS fst snd];
  repeat match goal with
  | |- context [Qle_bool ?a ?b] =>
      let E := fresh "E" in
      destruct (Qle_bool a b) eqn:E;
      [ apply Qle_bool_iff in E
      | apply not_true_iff_false in E; rewrite Qle_bool_iff in E;
        apply Qnot_le_lt in E ];
      unfold inject_Z in E; cbn [andb negb]; cbv iota;
      try (exfalso; lra)
  end.

(** The badge as a function of the score, tier by tier: "New" up to 29
    (any negative score included), "Explorer" on [30,59], "Trusted" on
    [60,79], "Elite" on [80,94], "Ambassador" from 95 on (any score above
    100 included). *)
Theorem badge_by_interval (x : Q) :
  ((x <= 29)%Q ->
   _get_badge_for_score x = Some (mkBadgeInfo "New" "No PAI coin trade, limited ads"))
  /\ ((30 <= x)%Q -> (x <= 59)%Q ->
      _get_badge_for_score x = Some (mkBadgeInfo "Explorer" "Can view all ads, earn coins"))
  /\ ((60 <= x)%Q -> (x <= 79)%Q ->
      _get_badge_for_score x
      = Some (mkBadgeInfo "Trusted" "Can trade coins, appear higher in feed"))
  /\ ((80 <= x)%Q -> (x <= 94)%Q ->
      _get_badge_for_score x = Some (mkBadgeInfo "Elite" "Premium ads, faster rewards"))
  /\ ((95 <= x)%Q ->
      _get_badge_for_score x
      = Some (mkBadgeInfo "Ambassador" "First access, spotlight ads, bonus coins")).
Proof.
  split; [|split; [|split; [|split]]].
  - intros H. badge_cases; reflexivity.
  - intros H1 H2. badge_cases; reflexivity.
  - intros H1 H2. badge_cases; reflexivity.
  - intros H1 H2. badge_cases; reflexivity.
  - intros H. badge_cases; reflexivity.
Qed.

(** A score has no badge exactly when it lies strictly between two
    consecutive tiers. *)
Theorem badge_none_iff_between_tiers (x : Q) :
  _get_badge_for_score x = None
  <-> ((29 < x)%Q /\ (x < 30)%Q) \/ ((59 < x)%Q /\ (x < 60)%Q)
      \/ ((79 < x)%Q /\ (x < 80)%Q) \/ ((94 < x)%Q /\ (x < 95)%Q).
Proof.
  split.
  - intros Hnone.
    destruct (Qlt_le_dec 29 x) as [H29 | H29];
      [|exfalso; revert Hnone; badge_cases; discriminate].
    destruct (Qlt_le_dec x 30) as [H30 | H30]; [left; split; assumption|].
    destruct (Qlt_le_dec 59 x) as [H59 | H59];
      [|exfalso; revert Hnone; badge_cases; discriminate].
    destruct (Qlt_le_dec x 60) as [H60 | H60]; [right; left; split; assumption|].
    destruct (Qlt_le_dec 79 x) as [H79 | H79];
      [|exfalso; revert Hnone; badge_cases; discriminate].
    destruct (Qlt_le_dec x 80) as [H80 | H80];
      [right; right; left; split; assumption|].
    destruct (Qlt_le_dec 94 x) as [H94 | H94];
      [|exfalso; revert Hnone; badge_cases; discriminate].
    destruct (Qlt_le_dec x 95) as [H95 | H95];
      [right; right; right; split; assumption|].
    exfalso. revert Hnone. badge_cases; discriminate.
  - intros [[H1 H2] | [[H1 H2] | [[H1 H2] | [H1 H2]]]]; badge_cases; reflexivity.
Qed.

Lemma badge_by_interval_witness :
  _get_badge_for_score 45.5 = Some (mkBadgeInfo "Explorer" "Can view all ads, earn coins")
  /\ _get_badge_for_score 250
     = Some (mkBadgeInfo "Ambassador" "First access, spotlight ads, bonus coins")
  /\ _get_badge_for_score (-4)
     = Some (mkBadgeInfo "New" "No PAI coin trade, limited ads").
Proof.
  destruct (badge_by_interval 45.5) as (_ & H & _).
  destruct (badge_by_interval 250) as (_ & _ & _ & _ & Hhi).
  destruct (badge_by_interval (-4)) as (Hlo & _).
  split; [apply H; vm_compute; discriminate|].
  split; [apply Hhi | apply Hlo]; vm_compute; discriminate.
Defined.

Lemma badge_none_iff_between_tiers_witness : _get_badge_for_score 59.5 = None.
Proof.
  apply (badge_none_iff_between_tiers 59.5).
  right; left. split; vm_compute; reflexivity.
Defined.

(** ** Decay and delay never raise a contribution *)

Lemma catalog_bounded (k : string) (w : ActionInfo) :
  ACTION_WEIGHTS !! k = Some w -> catalog_rates_bounded w = true.
Proof.
  intros H. unfold ACTION_WEIGHTS in H.
  apply elem_of_list_to_map_2 in H. apply list_elem_of_In in H.
  assert (Hall : forallb (fun kv => catalog_rates_bounded (snd kv)) ACTION_WEIGHTS_items
                 = true)
    by (vm_compute; reflexivity).
  rewrite forallb_forall in Hall. exact (Hall _ H).
Qed.

Lemma Qpower_unit_interval (q : Q) (n : Z) :
  (0 <= q)%Q -> (q <= 1)%Q -> 0 <= n -> (0 <= q ^ n)%Q /\ (q ^ n <= 1)%Q.
Proof.
  intros H0 H1 Hn. split; [apply Qpower_0_le; assumption|].
  revert n Hn. apply natlike_ind.
  - apply Qle_refl.
  - intros n Hn IH. unfold Z.succ.
    rewrite Qpower_plus' by lia. rewrite Qpower_1_r.
    pose proof (Qpower_0_le q n H0) as Hp. nra.
Qed.

Lemma Qpower_antitone (q : Q) (n m : Z) :
  (0 <= q)%Q -> (q <= 1)%Q -> 0 <= n <= m -> (q ^ m <= q ^ n)%Q.
Proof.
  intros H0 H1 Hnm.
  destruct (Z.eq_dec m n) as [-> | Hne]; [apply Qle_refl|].
  replace m with (n + (m - n)) by lia.
  rewrite Qpower_plus' by lia.
  pose proof (Qpower_unit_interval q (m - n) H0 H1 ltac:(lia)) as [Ha Hb].
  pose proof (Qpower_0_le q n H0) as Hp. nra.
Qed.




(** A record of non-negative weight is worth no more on a later date than
    on an earlier one. *)
Theorem effective_score_decreases_with_age (a : UserAction)
    (earlier later : Datetime.date) :
  ACTION_WEIGHTS !! action_type a = Some (weights a) ->
  (0 <= role_weight a)%Q ->
  Datetime.toordinal earlier <= Datetime.toordinal later ->
  (get_effective_score a later <= get_effective_score a earlier)%Q.
Proof.
  intros Hcat Hw Hle.
  pose proof (catalog_bounded _ _ Hcat) as Hb.
  unfold catalog_rates_bounded in Hb.
  apply andb_true_iff in Hb. destruct Hb as [Hdec _].
  apply andb_true_iff in Hdec. destruct Hdec as [Hd0 Hd1].
  apply Qle_bool_iff in Hd0. apply Qle_bool_iff in Hd1.
  unfold get_effective_score. cbv zeta. fold (role_weight a).
  set (k1 := Z.max (Datetime.days_between earlier (date a)) 0).
  set (k2 := Z.max (Datetime.days_between later (date a)) 0).
  assert (Hk : 0 <= k1 <= k2) by (unfold k1, k2, Datetime.days_between; lia).
  assert (Hpow : ((1 - w_decay (weights a)) ^ k2 <= (1 - w_decay (weights a)) ^ k1)%Q)
    by (apply Qpower_antitone; [lra | lra | exact Hk]).
  set (q := (1 - w_decay (weights a))%Q) in *.
  generalize dependent (q ^ k2)%Q. generalize dependent (q ^ k1)%Q.
  intros p1 p2 Hpow.
  destruct (Qlt_bool 0 (w_decay (weights a))).
  - destruct ((0 <? delay_days a)
              && Qlt_bool (default 1.0%Q (w_delay_factor (weights a))) 1.0) eqn:Eb.
    + apply andb_true_iff in Eb. destruct Eb as [Epos _]. apply Z.ltb_lt in Epos.
      assert (Hf : (0 <= default 1.0%Q (w_delay_factor (weights a))
                         ^ delay_days a)%Q).
      { apply Qpower_0_le.
        pose proof (catalog_bounded _ _ Hcat) as Hb.
        unfold catalog_rates_bounded in Hb.
        apply andb_true_iff in Hb. destruct Hb as [_ Hdel].
        destruct (w_delay_factor (weights a)) as [f|]; cbn [default from_option id].
        - apply andb_true_iff in Hdel. destruct Hdel as [Hf0 _].
          apply Qle_bool_iff in Hf0. exact Hf0.
        - discriminate. }
      generalize dependent (default 1.0%Q (w_delay_factor (weights a))
                            ^ delay_days a)%Q.
      intros g Hg.
      assert (Hc : (0 <= role_weight a * g)%Q)
        by (apply Qmult_le_0_compat; assumption).
      assert (E2 : (role_weight a * p2 * g == role_weight a * g * p2)%Q) by ring.
      assert (E1 : (role_weight a * p1 * g == role_weight a * g * p1)%Q) by ring.
      rewrite E1, E2. clear E1 E2.
      generalize dependent (role_weight a * g)%Q. intros c Hc. nra.
    + nra.
  - apply Qle_refl.
Qed.

Lemma effective_score_decreases_with_age_witness :
  (get_effective_score delayed_like (Datetime.mkdate 2025 8 1)
   <= get_effective_score delayed_like sim_start_date)%Q.
Proof.
  apply effective_score_decreases_with_age.
  - vm_compute. reflexivity.
  - vm_compute. discriminate.
  - vm_compute. discriminate.
Defined.

(** A record dated after the date of the computation is not decayed: it is
    worth what it is worth on its own date. *)
Theorem future_record_not_decayed (a : UserAction) (current : Datetime.date) :
  Datetime.toordinal current <= Datetime.toordinal (date a) ->
  get_effective_score a current = get_effective_score a (date a).
Proof.
  intros Hle. unfold get_effective_score, Datetime.days_between. cbv zeta.
  rewrite Z.max_r by lia. rewrite (Z.max_r (_ - _) 0) by lia. reflexivity.
Qed.

Lemma future_record_not_decayed_witness :
  get_effective_score delayed_like (Datetime.mkdate 2025 7 1)
  = get_effective_score delayed_like (Datetime.mkdate 2025 7 8).
Proof.
  apply (future_record_not_decayed delayed_like (Datetime.mkdate 2025 7 1)).
  vm_compute. discriminate.
Defined.

(** A penalty never fades: the actor-role record of a catalog type of
    negative weight is worth that weight on every date and for every
    delay. *)
Theorem penalty_never_decays (a : UserAction) (current : Datetime.date) :
  ACTION_WEIGHTS !! action_type a = Some (weights a) ->
  actor a = true ->
  (w_score (weights a) < 0)%Q ->
  get_effective_score a current = w_score (weights a).
Proof.
  intros Hcat Hact Hneg.
  assert (Hp : penalty_entry_constant (weights a) = true).
  { unfold ACTION_WEIGHTS in Hcat.
    apply elem_of_list_to_map_2 in Hcat. apply list_elem_of_In in Hcat.
    assert (Hall : forallb (fun kv => penalty_entry_constant (snd kv))
                     ACTION_WEIGHTS_items = true)
      by (vm_compute; reflexivity).
    rewrite forallb_forall in Hall. exact (Hall _ Hcat). }
  unfold penalty_entry_constant in Hp. apply orb_true_iff in Hp.
  destruct Hp as [Hpos | Hconst].
  - apply Qle_bool_iff in Hpos. exfalso. lra.
  - apply andb_true_iff in Hconst. destruct Hconst as [Hdecay Hdelay].
    apply negb_true_iff in Hdecay.
    unfold get_effective_score. cbv zeta. rewrite Hact, Hdecay.
    destruct (w_delay_factor (weights a)); [discriminate Hdelay|].
    cbn [default from_option id].
    rewrite andb_false_r. reflexivity.
Qed.

Lemma penalty_never_decays_witness :
  get_effective_score old_report sim_start_date = (-6.0)%Q.
Proof.
  apply (penalty_never_decays old_report sim_start_date).
  - vm_compute. reflexivity.
  - reflexivity.
  - vm_compute. reflexivity.
Defined.

(** ** [add_action] and [get_or_create_user] *)

(** [add_action] with a catalog action type appends exactly one record, at
    the end of the history, and moves the last action date to the later of
    the old one and the new date; name, role class, creation date, score,
    badge and cached bonus are untouched (the score is not recomputed). *)
Theorem add_action_appends_record (u : User) (kind : string) (info : ActionInfo)
    (d : Datetime.date) (role : bool) (delay : Z) :
  ACTION_WEIGHTS !! kind = Some info ->
  exists u',
    add_action u kind d role delay = Ok u'
    /\ action_history u' = action_history u ++ [mkUserAction kind d role info delay]
    /\ name u' = name u /\ type u' = type u /\ creation_date u' = creation_date u
    /\ score u' = score u /\ badge u' = badge u
    /\ age_score_component u' = age_score_component u
    /\ exists l, last_action_date u' = Some l
                 /\ Datetime.toordinal d <= Datetime.toordinal l
                 /\ match last_action_date u with
                    | Some l0 => Datetime.toordinal l
                                 = Z.max (Datetime.toordinal l0) (Datetime.toordinal d)
                    | None => l = d
                    end.
Proof.
  intros Hinfo.
  exists (with_record u (mkUserAction kind d role info delay)).
  split; [apply add_action_catalog; assumption|].
  unfold with_record. cbn [date].
  destruct (last_action_date u) as [l0|] eqn:El.
  - destruct (Z.ltb_spec (Datetime.toordinal l0) (Datetime.toordinal d)) as [Hlt | Hge].
    + cbn [action_history name type creation_date score badge age_score_component
           last_action_date set_last_action_date set_action_history].
      repeat (split; [reflexivity|]).
      exists d. split; [reflexivity|]. split; lia.
    + cbn [action_history name type creation_date score badge age_score_component
           last_action_date set_last_action_date set_action_history].
      repeat (split; [reflexivity|]).
      exists l0. split; [assumption|]. split; lia.
  - cbn [action_history name type creation_date score badge age_score_component
         last_action_date set_last_action_date set_action_history].
    repeat (split; [reflexivity|]).
    exists d. split; [reflexivity|]. split; [lia | reflexivity].
Qed.

Lemma add_action_appends_record_witness :
  exists u',
    add_action sai "LOGIN" (Datetime.mkdate 2025 7 1) true 0 = Ok u'
    /\ action_history u'
       = sai_history ++ [mkUserAction "LOGIN" (Datetime.mkdate 2025 7 1) true login_info 0]
    /\ score u' = score sai.
Proof.
  destruct (add_action_appends_record sai "LOGIN" login_info
              (Datetime.mkdate 2025 7 1) true 0)
    as (u' & Hrun & Hh & _ & _ & _ & Hs & _).
  - vm_compute. reflexivity.
  - exists u'. split; [exact Hrun|]. split; [exact Hh | exact Hs].
Defined.

(** [add_action] with an action type that is not in the catalog raises the
    "not defined" [ValueError]. *)
Lemma add_action_unknown (u : User) (kind : string) (d : Datetime.date)
    (role : bool) (delay : Z) :
  ACTION_WEIGHTS !! kind = None ->
  add_action u kind d role delay
  = Raise (ValueError
      (String.append "Action type '" (String.append kind "' is not defined."))).
Proof.
  intros H. unfold add_action, UserAction_init. rewrite H. reflexivity.
Qed.

(** A participant that [get_or_create_user] returned is registered under
    the name asked for, and asking again, with the same role class or with
    none, returns the same participant and changes nothing, whatever the
    creation date passed: the creation date of an existing participant is
    never overwritten. *)
Theorem get_or_create_user_again (s s1 : PaiSystem) (key : string)
    (user_type : option string) (created created' : option Datetime.date)
    (u : User) :
  get_or_create_user s key user_type created = (s1, Ok u) ->
  users s1 !! key = Some u
  /\ get_or_create_user s1 key user_type created' = (s1, Ok u)
  /\ get_or_create_user s1 key None created' = (s1, Ok u)
  /\ (forall key', key' <> key -> users s1 !! key' = users s !! key').
Proof.
  intros Hget. apply get_or_create_user_returns in Hget.
  destruct Hget as (Hc & Hres & ->).
  assert (Hl : users (registered s key u) !! key = Some u)
    by apply lookup_registered_eq.
  assert (Hty : truthy_str user_type = true -> type u = user_type).
  { intros Ht. rewrite Hres. unfold resolve.
    destruct (users s !! key) as [v|] eqn:E.
    - apply (Hc v E Ht).
    - reflexivity. }
  split; [exact Hl|]. split; [|split].
  - unfold get_or_create_user. rewrite Hl.
    destruct (truthy_str user_type) eqn:Et; [|reflexivity].
    rewrite bool_decide_eq_true_2 by (apply Hty; reflexivity). reflexivity.
  - unfold get_or_create_user. rewrite Hl. reflexivity.
  - intros key' Hne. apply lookup_registered_ne. congruence.
Qed.

Lemma get_or_create_user_again_witness :
  exists s1 u,
    get_or_create_user demo_system "Trupti" (Some common) None = (s1, Ok u)
    /\ users s1 !! "Trupti"%string = Some u
    /\ get_or_create_user s1 "Trupti" (Some common)
         (Some (Datetime.mkdate 2020 1 1)) = (s1, Ok u)
    /\ creation_date u = sim_start_date.
Proof.
  destruct (get_or_create_user demo_system "Trupti" (Some common) None)
    as [s1 [u|e]] eqn:E; [|vm_compute in E; discriminate E].
  exists s1, u. split; [reflexivity|].
  destruct (get_or_create_user_again demo_system s1 "Trupti" (Some common) None
              (Some (Datetime.mkdate 2020 1 1)) u E) as (Hl & Hagain & _).
  split; [exact Hl|]. split; [exact Hagain|].
  vm_compute in E. injection E as <- <-. reflexivity.
Defined.

(** ** What a recompute leaves alone *)

(** [update_user_score] changes nothing but the named participant, and of
    it only the history, the score, the badge and the cached bonus: the
    clock, the window and every other participant are as before, and the
    participant keeps its name, role class, creation date and last action
    date (which may then be the date of a pruned record).  For a name that
    is not registered it raises [KeyError] and changes nothing. *)
Theorem update_user_score_frame (s : PaiSystem) (user_name : string) :
  let s' := fst (update_user_score s user_name) in
  current_date s' = current_date s
  /\ history_days s' = history_days s
  /\ inactivity_days s' = inactivity_days s
  /\ (forall key, key <> user_name -> users s' !! key = users s !! key)
  /\ (forall u, users s !! user_name = Some u ->
        exists u', users s' !! user_name = Some u'
                   /\ name u' = name u /\ type u' = type u
                   /\ creation_date u' = creation_date u
                   /\ last_action_date u' = last_action_date u)
  /\ (users s !! user_name = None ->
      update_user_score s user_name = (s, Raise (KeyError user_name))).
Proof.
  cbv zeta.
  destruct (users s !! user_name) as [u|] eqn:Hu.
  - destruct (window_in_calendar_dec s) as [Hcal | Hcal].
    2:{ rewrite (update_user_score_overflow s user_name u Hu Hcal). cbn [fst].
        split; [reflexivity|]. split; [reflexivity|]. split; [reflexivity|].
        split; [|split].
        - intros key _. reflexivity.
        - intros v Hv. injection Hv as <-. exists u.
          split; [assumption|]. repeat split.
        - intros Hnone. discriminate Hnone. }
    rewrite (update_user_score_found s user_name u Hu Hcal). cbn [fst].
    change (set_users s (<[user_name:=recomputed s u]> (users s)))
      with (registered s user_name (recomputed s u)).
    split; [reflexivity|]. split; [reflexivity|]. split; [reflexivity|].
    split; [|split].
    + intros key Hne. apply lookup_registered_ne. congruence.
    + intros v Hv. injection Hv as <-. exists (recomputed s u).
      split; [apply lookup_registered_eq|]. repeat split.
    + intros Hnone. discriminate Hnone.
  - rewrite (update_user_score_missing s user_name Hu). cbn [fst].
    split; [reflexivity|]. split; [reflexivity|]. split; [reflexivity|].
    split; [|split].
    + intros key _. reflexivity.
    + intros v Hv. discriminate Hv.
    + intros _. reflexivity.
Qed.

Lemma update_user_score_frame_witness :
  update_user_score demo_system "Trupti" = (demo_system, Raise (KeyError "Trupti")).
Proof.
  pose proof (update_user_score_frame demo_system "Trupti") as H.
  cbv zeta in H. destruct H as (_ & _ & _ & _ & _ & Hmiss).
  apply Hmiss. reflexivity.
Defined.

Lemma badge_for_integer_score_witness :
  exists lo hi b,
    In ((lo, hi), b) BADGE_LEVELS
    /\ lo <= 30 <= hi
    /\ _get_badge_for_score (inject_Z 30) = Some b.
Proof.
  destruct (badge_for_integer_score 30) as (lo & hi & b & Hin & Hr & Hb & _).
  - lia.
  - exists lo, hi, b. split; [exact Hin|]. split; [exact Hr | exact Hb].
Defined.
